(** * Monitoring service: device registry, discovery handshake, broadcast fan-out

    A shallow embedding of [monitoring/models.py], [monitoring/device_registry.py],
    [monitoring/websocket_manager.py] and the handlers of
    [monitoring/routers/spectrometers.py] that the registry properties depend on.

    Conventions of the embedding
    - a Python [dict[str, T]] is a [gmap string T]; the pydantic objects held in
      the dicts are records.  Every object stored by the program is built by a
      constructor call immediately before it is added
      ([create_spectrometer], [create_vacuum_chamber], [discover_device]), so two
      keys never hold the same object and in-place attribute assignment on the
      object under key [k] is an update of the value under [k];
    - a Python [float] is an IEEE binary64 value, [spec_float];
    - [uuid4()], [datetime.now()] and the network are inputs, gathered in a
      [World] record;
    - code that may raise runs in a state-and-exception monad whose state
      survives a raise, as mutations of the registry do in Python;
    - the handlers are coroutines of one event loop, and other tasks run
      while one of them waits in an [await].  A handler is followed from its
      first statement to its last with the registry it was given.  The
      broadcast walks the subscriber set across its [await]s and the walk
      fails when the set changes there, so what the other tasks do to the set
      while the broadcast waits is an input of the broadcast;
    - what pydantic's [BaseModel] answers for a name that is no declared
      field is an input as well, carried by the keyword argument;
    - [logger] calls do not touch the registry and are left out. *)

From Stdlib Require Import ZArith Ascii String SpecFloat.
From stdpp Require Import gmap strings list fin_maps pretty.

Set Warnings "-register-all,-clear-no-such-hyp".

Local Open Scope string_scope.
Local Open Scope list_scope.
Local Open Scope Z_scope.

(** ** Python values that cross the boundary *)

Definition float := spec_float.

(** [datetime] values are only stored and handed back. *)
Definition datetime := Z.

(** The result of [response.json()]. *)
Inductive json :=
| JNull
| JBool (b : bool)
| JInt (n : Z)
| JFloat (x : float)
| JStr (s : string)
| JList (l : list json)
| JDict (d : gmap string json).

(** Exceptions, all of them subclasses of [Exception]. *)
Inductive exn :=
| TimeoutException
| RequestError
| JSONDecodeError
| KeyError
| TypeError
| ValueError
| ValidationError
| AttributeError
| RuntimeError
| WebSocketDisconnect.

(** Python truthiness, [bool(v)]. *)
Definition truthy (v : json) : bool :=
  match v with
  | JNull => false
  | JBool b => b
  | JInt n => negb (Z.eqb n 0)
  | JFloat x => negb (SFeqb x (S754_zero false))
  | JStr s => negb (String.eqb s "")
  | JList l => match l with [] => false | _ => true end
  | JDict d => negb (bool_decide (d = ∅))
  end.

(** [d[key]] *)
Definition getitem (d : json) (key : string) : exn + json :=
  match d with
  | JDict m => match m !! key with Some v => inr v | None => inl KeyError end
  | _ => inl TypeError
  end.

(** [d.get(key, default)] on a dict. *)
Definition dict_get (m : gmap string json) (key : string) (default : json) : json :=
  match m !! key with Some v => v | None => default end.

(** [d.get(key, default)] on a decoded body; only a dict has the method. *)
Definition get (d : json) (key : string) (default : json) : exn + json :=
  match d with
  | JDict m => inr (dict_get m key default)
  | _ => inl AttributeError
  end.

(** ** models.py *)

Inductive DeviceType := SPECTROMETER | VACUUM_CHAMBER.

Inductive ProcessType := TWO_COMPONENT | THREE_COMPONENT | COMPOSITE_TWO_COMPONENT.

Inductive DeviceStatus := CONNECTED | DISCONNECTED | ERROR.

Inductive VacuumChamberStatus := RUNNING | STOPPED.

(** [DeviceType(value)]: lookup of an enum member by value. *)
Definition DeviceType_of (v : json) : exn + DeviceType :=
  match v with
  | JStr s =>
      if String.eqb s "spectrometer" then inr SPECTROMETER
      else if String.eqb s "vacuum-chamber" then inr VACUUM_CHAMBER
      else inl ValueError
  | _ => inl ValueError
  end.

(** [ProcessType(value)] *)
Definition ProcessType_of (v : json) : exn + ProcessType :=
  match v with
  | JStr s =>
      if String.eqb s "two-component" then inr TWO_COMPONENT
      else if String.eqb s "three-component" then inr THREE_COMPONENT
      else if String.eqb s "composite-two-component" then inr COMPOSITE_TWO_COMPONENT
      else inl ValueError
  | _ => inl ValueError
  end.

Definition ascii_lower (c : ascii) : ascii :=
  let n := N_of_ascii c in
  if ((65 <=? n) && (n <=? 90))%N then ascii_of_N (n + 32) else c.

Fixpoint str_lower (s : string) : string :=
  match s with
  | EmptyString => EmptyString
  | String c r => String (ascii_lower c) (str_lower r)
  end.

(** pydantic's validation of a [bool] field in its default (lax) mode:
    booleans, the integers and floats 0 and 1, and the usual words. *)
Definition validate_bool (v : json) : exn + bool :=
  match v with
  | JBool b => inr b
  | JInt n => if Z.eqb n 0 then inr false else if Z.eqb n 1 then inr true else inl ValidationError
  | JFloat x =>
      if SFeqb x (S754_zero false) then inr false
      else if SFeqb x (S754_finite false 4503599627370496 (-52)) then inr true
      else inl ValidationError
  | JStr s =>
      let l := str_lower s in
      if bool_decide (l ∈ ["0"; "off"; "f"; "false"; "n"; "no"]) then inr false
      else if bool_decide (l ∈ ["1"; "on"; "t"; "true"; "y"; "yes"]) then inr true
      else inl ValidationError
  | _ => inl ValidationError
  end.

(** pydantic's validation of a [str] field. *)
Definition validate_str (v : json) : exn + string :=
  match v with JStr s => inr s | _ => inl ValidationError end.

(** pydantic's validation of a [dict] field. *)
Definition validate_dict (v : json) : exn + gmap string json :=
  match v with JDict m => inr m | _ => inl ValidationError end.

(** A name that starts with an underscore.  pydantic keeps such names apart
    from the fields and sets them on the object itself; the keyword
    arguments below do not range over them. *)
Definition underscore (key : string) : bool :=
  match key with
  | String "_"%char _ => true
  | _ => false
  end.

Module DeviceInfo.
Record t := mk {
  id : string;
  type : DeviceType;
  port : Z;
  address : string;
  name : string;
  status : DeviceStatus;
  capabilities : gmap string json
}.
End DeviceInfo.

Module SpectrometerConfig.
Record t := mk {
  id : string;
  device_id : string;
  name : string;
  is_monochromatic : bool;
  control_wavelength : option float;
  is_active : bool;
  created_at : datetime
}.

Definition set_is_active (b : bool) (c : t) : t :=
  mk (id c) (device_id c) (name c) (is_monochromatic c) (control_wavelength c) b (created_at c).

(** The declared fields. *)
Definition fields : list string :=
  ["id"; "device_id"; "name"; "is_monochromatic"; "control_wavelength"; "is_active";
   "created_at"].

(** A public name that is not a declared field. *)
Definition other_name (key : string) : bool :=
  negb (existsb (String.eqb key) fields) && negb (underscore key).

(** One keyword argument of [update_spectrometer]; a call passes each key
    once.  It is an assignment to a declared field, with a value of the
    field's type, or it carries another public name.  For such a name,
    [attribute] is what the class answers through pydantic's [BaseModel]:
    [None] when the object has no attribute of that name, [Some e] when it
    has one (a method such as [model_dump], a class variable), and then an
    assignment to it raises [e]. *)
Inductive kwarg :=
| kw_id (v : string)
| kw_device_id (v : string)
| kw_name (v : string)
| kw_is_monochromatic (v : bool)
| kw_control_wavelength (v : option float)
| kw_is_active (v : bool)
| kw_created_at (v : datetime)
| kw_other (key : string) (value : json) (attribute : option exn) (other : other_name key = true).

(** [hasattr(config, key)] *)
Definition hasattr (c : t) (kw : kwarg) : bool :=
  match kw with
  | kw_other _ _ None _ => false
  | _ => true
  end.

(** [setattr(config, key, value)].  The class does not validate assignments:
    a field takes the value.  pydantic refuses to assign a public name that
    is no field, with [ValueError] (object has no field) or, for a name the
    class has, with what the class raises for it. *)
Definition setattr (c : t) (kw : kwarg) : exn + t :=
  match kw with
  | kw_id v => inr (mk v (device_id c) (name c) (is_monochromatic c) (control_wavelength c) (is_active c) (created_at c))
  | kw_device_id v => inr (mk (id c) v (name c) (is_monochromatic c) (control_wavelength c) (is_active c) (created_at c))
  | kw_name v => inr (mk (id c) (device_id c) v (is_monochromatic c) (control_wavelength c) (is_active c) (created_at c))
  | kw_is_monochromatic v => inr (mk (id c) (device_id c) (name c) v (control_wavelength c) (is_active c) (created_at c))
  | kw_control_wavelength v => inr (mk (id c) (device_id c) (name c) (is_monochromatic c) v (is_active c) (created_at c))
  | kw_is_active v => inr (set_is_active v c)
  | kw_created_at v => inr (mk (id c) (device_id c) (name c) (is_monochromatic c) (control_wavelength c) (is_active c) v)
  | kw_other _ _ (Some e) _ => inl e
  | kw_other _ _ None _ => inl ValueError
  end.
End SpectrometerConfig.

Module VacuumChamberConfig.
Record t := mk {
  id : string;
  device_id : string;
  name : string;
  process_type : ProcessType;
  current_material : option string;
  current_fraction : option float;
  status : VacuumChamberStatus;
  is_active : bool;
  created_at : datetime
}.

Definition set_is_active (b : bool) (c : t) : t :=
  mk (id c) (device_id c) (name c) (process_type c) (current_material c)
     (current_fraction c) (status c) b (created_at c).

(** The declared fields. *)
Definition fields : list string :=
  ["id"; "device_id"; "name"; "process_type"; "current_material"; "current_fraction";
   "status"; "is_active"; "created_at"].

(** A public name that is not a declared field. *)
Definition other_name (key : string) : bool :=
  negb (existsb (String.eqb key) fields) && negb (underscore key).

(** One keyword argument of [update_vacuum_chamber], as for
    [SpectrometerConfig]. *)
Inductive kwarg :=
| kw_id (v : string)
| kw_device_id (v : string)
| kw_name (v : string)
| kw_process_type (v : ProcessType)
| kw_current_material (v : option string)
| kw_current_fraction (v : option float)
| kw_status (v : VacuumChamberStatus)
| kw_is_active (v : bool)
| kw_created_at (v : datetime)
| kw_other (key : string) (value : json) (attribute : option exn) (other : other_name key = true).

(** [hasattr(config, key)] *)
Definition hasattr (c : t) (kw : kwarg) : bool :=
  match kw with
  | kw_other _ _ None _ => false
  | _ => true
  end.

(** [setattr(config, key, value)] *)
Definition setattr (c : t) (kw : kwarg) : exn + t :=
  match kw with
  | kw_id v => inr (mk v (device_id c) (name c) (process_type c) (current_material c) (current_fraction c) (status c) (is_active c) (created_at c))
  | kw_device_id v => inr (mk (id c) v (name c) (process_type c) (current_material c) (current_fraction c) (status c) (is_active c) (created_at c))
  | kw_name v => inr (mk (id c) (device_id c) v (process_type c) (current_material c) (current_fraction c) (status c) (is_active c) (created_at c))
  | kw_process_type v => inr (mk (id c) (device_id c) (name c) v (current_material c) (current_fraction c) (status c) (is_active c) (created_at c))
  | kw_current_material v => inr (mk (id c) (device_id c) (name c) (process_type c) v (current_fraction c) (status c) (is_active c) (created_at c))
  | kw_current_fraction v => inr (mk (id c) (device_id c) (name c) (process_type c) (current_material c) v (status c) (is_active c) (created_at c))
  | kw_status v => inr (mk (id c) (device_id c) (name c) (process_type c) (current_material c) (current_fraction c) v (is_active c) (created_at c))
  | kw_is_active v => inr (set_is_active v c)
  | kw_created_at v => inr (mk (id c) (device_id c) (name c) (process_type c) (current_material c) (current_fraction c) (status c) (is_active c) v)
  | kw_other _ _ (Some e) _ => inl e
  | kw_other _ _ None _ => inl ValueError
  end.
End VacuumChamberConfig.

Module SpectralData.
Record t := mk {
  timestamp : datetime;
  calibrated_readings : list float;
  wavelengths : list float
}.
End SpectralData.

(** ** device_registry.py *)

Record DeviceRegistry := mkRegistry {
  devices : gmap string DeviceInfo.t;
  spectrometers : gmap string SpectrometerConfig.t;
  vacuum_chambers : gmap string VacuumChamberConfig.t;
  spectral_data : gmap string SpectralData.t
}.

(** [DeviceRegistry.__init__] *)
Definition DeviceRegistry_init : DeviceRegistry := mkRegistry ∅ ∅ ∅ ∅.

Definition with_devices (r : DeviceRegistry) (m : gmap string DeviceInfo.t) :=
  mkRegistry m (spectrometers r) (vacuum_chambers r) (spectral_data r).
Definition with_spectrometers (r : DeviceRegistry) (m : gmap string SpectrometerConfig.t) :=
  mkRegistry (devices r) m (vacuum_chambers r) (spectral_data r).
Definition with_vacuum_chambers (r : DeviceRegistry) (m : gmap string VacuumChamberConfig.t) :=
  mkRegistry (devices r) (spectrometers r) m (spectral_data r).
Definition with_spectral_data (r : DeviceRegistry) (m : gmap string SpectralData.t) :=
  mkRegistry (devices r) (spectrometers r) (vacuum_chambers r) m.

Definition get_device (r : DeviceRegistry) (device_id : string) : option DeviceInfo.t :=
  devices r !! device_id.

Definition remove_device (device_id : string) (r : DeviceRegistry) : bool * DeviceRegistry :=
  match devices r !! device_id with
  | Some _ => (true, with_devices r (delete device_id (devices r)))
  | None => (false, r)
  end.

Definition add_spectrometer (config : SpectrometerConfig.t) (r : DeviceRegistry) : DeviceRegistry :=
  with_spectrometers r (<[SpectrometerConfig.id config := config]> (spectrometers r)).

Definition get_spectrometer (r : DeviceRegistry) (spectrometer_id : string) :=
  spectrometers r !! spectrometer_id.

(** [for key, value in kwargs.items():
       if hasattr(config, key):
           setattr(config, key, value)]
    The loop works on the stored object, so the assignments made before a
    raise stay made.  Returns how the loop ended and the object as it left
    it. *)
Section Patch.
Context {T K : Type} (hasattr : T → K → bool) (setattr : T → K → exn + T).

Fixpoint patch (config : T) (kwargs : list K) : (exn + unit) * T :=
  match kwargs with
  | [] => (inr tt, config)
  | kw :: kwargs =>
      if hasattr config kw then
        match setattr config kw with
        | inr config' => patch config' kwargs
        | inl e => (inl e, config)
        end
      else patch config kwargs
  end.
End Patch.

Definition update_spectrometer (spectrometer_id : string) (kwargs : list SpectrometerConfig.kwarg)
    (r : DeviceRegistry) : (exn + option SpectrometerConfig.t) * DeviceRegistry :=
  match spectrometers r !! spectrometer_id with
  | Some config =>
      let '(outcome, config') :=
        patch SpectrometerConfig.hasattr SpectrometerConfig.setattr config kwargs in
      let r' := with_spectrometers r (<[spectrometer_id := config']> (spectrometers r)) in
      match outcome with
      | inr _ => (inr (Some config'), r')
      | inl e => (inl e, r')
      end
  | None => (inr None, r)
  end.

(** [for spec_id, spec in self.spectrometers.items():
       spec.is_active = spec_id == spectrometer_id] *)
Definition set_active_spectrometer (spectrometer_id : string) (r : DeviceRegistry)
    : bool * DeviceRegistry :=
  match spectrometers r !! spectrometer_id with
  | Some _ =>
      (true,
       with_spectrometers r
         (map_imap (λ spec_id spec,
            Some (SpectrometerConfig.set_is_active (bool_decide (spec_id = spectrometer_id)) spec))
            (spectrometers r)))
  | None => (false, r)
  end.

Definition remove_spectrometer (spectrometer_id : string) (r : DeviceRegistry)
    : bool * DeviceRegistry :=
  match spectrometers r !! spectrometer_id with
  | Some _ =>
      let r1 := with_spectrometers r (delete spectrometer_id (spectrometers r)) in
      let r2 := match spectral_data r1 !! spectrometer_id with
                | Some _ => with_spectral_data r1 (delete spectrometer_id (spectral_data r1))
                | None => r1
                end in
      (true, r2)
  | None => (false, r)
  end.

Definition store_spectral_data (spectrometer_id : string) (calibrated_readings wavelengths : list float)
    (timestamp : datetime) (r : DeviceRegistry) : DeviceRegistry :=
  with_spectral_data r
    (<[spectrometer_id := SpectralData.mk timestamp calibrated_readings wavelengths]> (spectral_data r)).

Definition get_spectral_data (r : DeviceRegistry) (spectrometer_id : string) : option SpectralData.t :=
  spectral_data r !! spectrometer_id.

Definition add_vacuum_chamber (config : VacuumChamberConfig.t) (r : DeviceRegistry) : DeviceRegistry :=
  with_vacuum_chambers r (<[VacuumChamberConfig.id config := config]> (vacuum_chambers r)).

Definition get_vacuum_chamber (r : DeviceRegistry) (chamber_id : string) :=
  vacuum_chambers r !! chamber_id.

Definition update_vacuum_chamber (chamber_id : string) (kwargs : list VacuumChamberConfig.kwarg)
    (r : DeviceRegistry) : (exn + option VacuumChamberConfig.t) * DeviceRegistry :=
  match vacuum_chambers r !! chamber_id with
  | Some config =>
      let '(outcome, config') :=
        patch VacuumChamberConfig.hasattr VacuumChamberConfig.setattr config kwargs in
      let r' := with_vacuum_chambers r (<[chamber_id := config']> (vacuum_chambers r)) in
      match outcome with
      | inr _ => (inr (Some config'), r')
      | inl e => (inl e, r')
      end
  | None => (inr None, r)
  end.

Definition set_active_vacuum_chamber (chamber_id : string) (r : DeviceRegistry)
    : bool * DeviceRegistry :=
  match vacuum_chambers r !! chamber_id with
  | Some _ =>
      (true,
       with_vacuum_chambers r
         (map_imap (λ ch_id chamber,
            Some (VacuumChamberConfig.set_is_active (bool_decide (ch_id = chamber_id)) chamber))
            (vacuum_chambers r)))
  | None => (false, r)
  end.

Definition remove_vacuum_chamber (chamber_id : string) (r : DeviceRegistry)
    : bool * DeviceRegistry :=
  match vacuum_chambers r !! chamber_id with
  | Some _ => (true, with_vacuum_chambers r (delete chamber_id (vacuum_chambers r)))
  | None => (false, r)
  end.

(** ** Computations that may raise

    The registry is threaded through; a raise keeps the registry as the
    statements before it left it. *)

Definition M (A : Type) : Type := DeviceRegistry → (exn + A) * DeviceRegistry.

Definition ret {A} (a : A) : M A := λ r, (inr a, r).

Definition bind {A B} (m : M A) (k : A → M B) : M B :=
  λ r, match m r with
       | (inr a, r') => k a r'
       | (inl e, r') => (inl e, r')
       end.

(** A pure step that may raise. *)
Definition lift {A} (x : exn + A) : M A := λ r, (x, r).

(** A registry method that does not raise. *)
Definition modify (f : DeviceRegistry → DeviceRegistry) : M unit := λ r, (inr tt, f r).

(** [try: m  except Exception as e: handler e] *)
Definition try_except {A} (m : M A) (handler : exn → M A) : M A :=
  λ r, match m r with
       | (inr a, r') => (inr a, r')
       | (inl e, r') => handler e r'
       end.

Notation "'do' x <- m ; k" := (bind m (λ x, k))
  (at level 10, x name, m at level 100, k at level 200, only parsing).
Notation "'exec' m ; k" := (bind m (λ _, k))
  (at level 10, m at level 100, k at level 200, only parsing).

(** ** The outside of the process *)

Record Response := mkResponse {
  status_code : Z;
  body : option json
}.

(** [response.json()] *)
Definition Response_json (response : Response) : exn + json :=
  match body response with
  | Some data => inr data
  | None => inl JSONDecodeError
  end.

(** What one call of [discover_device] meets: the peripheral behind
    [client.get] and [client.post], the identifiers drawn by [uuid4] for the
    three objects it may construct, and the clock read by their
    [created_at] defaults. *)
Record World := mkWorld {
  http_get : string → exn + Response;
  http_post : string → json → exn + Response;
  uuid4_device : string;
  uuid4_spectrometer : string;
  uuid4_vacuum_chamber : string;
  now_spectrometer : datetime;
  now_vacuum_chamber : datetime
}.

(** [DeviceInfo(type=..., port=..., address=..., name=..., status=..., capabilities=...)] *)
Definition DeviceInfo_new (w : World) (type : DeviceType) (port : Z) (address : string)
    (name : json) (status : DeviceStatus) (capabilities : json) : exn + DeviceInfo.t :=
  match validate_str name, validate_dict capabilities with
  | inr name, inr capabilities =>
      inr (DeviceInfo.mk (uuid4_device w) type port address name status capabilities)
  | inl e, _ => inl e
  | _, inl e => inl e
  end.

(** [SpectrometerConfig(device_id=..., name=..., is_monochromatic=..., control_wavelength=..., is_active=...)] *)
Definition SpectrometerConfig_new (w : World) (device_id name : string) (is_monochromatic : json)
    (control_wavelength : option float) (is_active : bool) : exn + SpectrometerConfig.t :=
  match validate_bool is_monochromatic with
  | inr is_monochromatic =>
      inr (SpectrometerConfig.mk (uuid4_spectrometer w) device_id name is_monochromatic
             control_wavelength is_active (now_spectrometer w))
  | inl e => inl e
  end.

(** [VacuumChamberConfig(device_id=..., name=..., process_type=..., ...)] *)
Definition VacuumChamberConfig_new (w : World) (device_id name : string) (process_type : ProcessType)
    (current_material : option string) (current_fraction : option float)
    (status : VacuumChamberStatus) (is_active : bool) : VacuumChamberConfig.t :=
  VacuumChamberConfig.mk (uuid4_vacuum_chamber w) device_id name process_type
    current_material current_fraction status is_active (now_vacuum_chamber w).

Definition json_of_option_str (o : option string) : json :=
  match o with Some s => JStr s | None => JNull end.

(** ** discover_device *)

(** [f"http://{address}:{port}/device/info"] *)
Definition device_info_url (address : string) (port : Z) : string :=
  "http://" +:+ address +:+ ":" +:+ pretty port +:+ "/device/info".

(** Lines 39-87: the body of the [status_code == 200] branch up to the
    registration callback. *)
Definition provision (w : World) (port : Z) (address : string) (response : Response)
    : M (DeviceInfo.t * option string * option string) :=
  do data <- lift (Response_json response) ;
  do type_value <- lift (getitem data "type") ;
  do type <- lift (DeviceType_of type_value) ;
  do name <- lift (get data "name" (JStr "Unknown Device")) ;
  do capabilities <- lift (get data "capabilities" (JDict ∅)) ;
  do device_info <- lift (DeviceInfo_new w type port address name CONNECTED capabilities) ;
  exec modify (λ r, with_devices r (<[DeviceInfo.id device_info := device_info]> (devices r))) ;
  let capabilities := DeviceInfo.capabilities device_info in
  do spectrometer_id <-
    (if truthy (dict_get capabilities "has_spectrometer" JNull) then
       let is_monochromatic := dict_get capabilities "is_monochromatic" (JBool false) in
       do spectrometer_config <- lift (SpectrometerConfig_new w
                                      (DeviceInfo.id device_info)
                                      (DeviceInfo.name device_info +:+ " - Spectrometer")
                                      is_monochromatic None false) ;
       exec modify (add_spectrometer spectrometer_config) ;
       ret (Some (SpectrometerConfig.id spectrometer_config))
     else ret None) ;
  do vacuum_chamber_id <-
    (if truthy (dict_get capabilities "has_vacuum_chamber" JNull) then
       do process_type <- lift (ProcessType_of
                               (dict_get capabilities "process_type" (JStr "two-component"))) ;
       let vacuum_chamber_config :=
         VacuumChamberConfig_new w (DeviceInfo.id device_info)
           (DeviceInfo.name device_info +:+ " - Vacuum Chamber")
           process_type (Some "H") None STOPPED false in
       exec modify (add_vacuum_chamber vacuum_chamber_config) ;
       ret (Some (VacuumChamberConfig.id vacuum_chamber_config))
     else ret None) ;
  ret (device_info, spectrometer_id, vacuum_chamber_id).

(** Lines 89-104: the best-effort [POST /register]. *)
Definition register_callback (w : World) (port : Z) (address monitoring_api_url : string)
    (spectrometer_id vacuum_chamber_id : option string) : M unit :=
  let register_url := "http://" +:+ address +:+ ":" +:+ pretty port +:+ "/register" in
  let register_payload :=
    JDict (<["monitoring_api_url" := JStr monitoring_api_url]>
          (<["spectrometer_id" := json_of_option_str spectrometer_id]>
          (<["vacuum_chamber_id" := json_of_option_str vacuum_chamber_id]> ∅))) in
  try_except
    (do register_response <- lift (http_post w register_url register_payload) ;
     if Z.eqb (status_code register_response) 200 then ret tt else ret tt)
    (λ reg_error, ret tt).

Definition discover_device (w : World) (port : Z) (address monitoring_api_url : string)
    (r : DeviceRegistry)
    : (option DeviceInfo.t * option string * option string) * DeviceRegistry :=
  let url := device_info_url address port in
  let attempt : M (option DeviceInfo.t * option string * option string) :=
    try_except
      (do response <- lift (http_get w url) ;
       if Z.eqb (status_code response) 200 then
         do found <- provision w port address response ;
         let '(device_info, spectrometer_id, vacuum_chamber_id) := found in
         exec register_callback w port address monitoring_api_url spectrometer_id vacuum_chamber_id ;
         ret (Some device_info, spectrometer_id, vacuum_chamber_id)
       else ret (None, None, None))
      (λ e, match e with
            | TimeoutException => ret (None, None, None)
            | _ => ret (None, None, None)
            end) in
  match attempt r with
  | (inr result, r') => (result, r')
  | (inl _, r') => ((None, None, None), r')
  end.

(** ** websocket_manager.py *)

(** A [WebSocket] object, up to identity. *)
Definition WebSocket := positive.

Record WebSocketManager := mkManager {
  active_connections : gset WebSocket
}.

(** What a broadcast does to the outside, in order. *)
Inductive event :=
| SendOk (connection : WebSocket) (text : string)
| SendRaised (connection : WebSocket) (e : exn)
| Discarded (connection : WebSocket).

Definition WebSocketManager_init : WebSocketManager := mkManager ∅.

(** [self.active_connections.discard(websocket)] *)
Definition disconnect (m : WebSocketManager) (websocket : WebSocket) : WebSocketManager :=
  mkManager (active_connections m ∖ {[websocket]}).

Definition json_of_floats (l : list float) : json := JList (JFloat <$> l).

Module PostSpectralDataRequest.
Record t := mk {
  calibrated_readings : list float;
  wavelengths : list float
}.

(** The value of a data attribute. *)
Inductive attribute :=
| floats (l : list float)
| moment (d : datetime).

(** [request.<name>]: the class declares two fields, and pydantic raises
    [AttributeError] for any other data attribute. *)
Definition getattr (request : t) (name : string) : exn + attribute :=
  if String.eqb name "calibrated_readings" then inr (floats (calibrated_readings request))
  else if String.eqb name "wavelengths" then inr (floats (wavelengths request))
  else inl AttributeError.
End PostSpectralDataRequest.

(** [SetControlWavelengthRequest]: [wavelength: float = Field(..., gt=0)]. *)
Definition SetControlWavelengthRequest_valid (wavelength : float) : bool :=
  SFltb (S754_zero false) wavelength.

(** What happens while a broadcast is suspended in
    [await connection.send_text(message_json)]: the outcome of the send, and
    what the other tasks of the event loop did to [active_connections]
    meanwhile (the endpoint of [server.py] adds a socket when it connects and
    discards it when its receive raises; another broadcast discards the
    sockets it could not reach).  The third argument is the set at the
    suspension; the second component of the result is [None] when no task
    touched the set and [Some connections] when they left it as
    [connections]. *)
Definition Suspension : Type :=
  WebSocket → string → gset WebSocket → (exn + unit) * option (gset WebSocket).

Section Runtime.
(** [json.dumps] and [datetime.isoformat], library functions taken as given. *)
Variable json_dumps : json → string.
Variable isoformat : datetime → string.

(** The state of the delivery loop: the manager, the local set
    [disconnected], and the trace so far. *)
Definition loop_state : Type := WebSocketManager * gset WebSocket * list event.

(** The iterator of a set raises [RuntimeError] (set changed size during
    iteration) at the next entry it is asked for, the end of the set
    included, once the set has another size than when the loop started.
    Over a set that was touched and has that size again it goes on without
    noticing, and which entries it still meets depends on the layout of the
    hash table: from there the rest of the [for] statement is taken as
    given. *)
Variable table_walk : loop_state → (exn + unit) * loop_state.

(** [for connection in self.active_connections:
       try: await connection.send_text(message_json)
       except Exception as e: disconnected.add(connection)]
    over the live set, with [ahead] the entries the iterator has still to
    yield.  The iterator is asked outside the [try]. *)
Fixpoint delivery_pass (send_text : Suspension) (message_json : string)
    (ahead : list WebSocket) (st : loop_state) : (exn + unit) * loop_state :=
  match ahead with
  | [] => (inr tt, st)
  | connection :: ahead =>
      let '(m, disconnected, trace) := st in
      let '(outcome, touched) := send_text connection message_json (active_connections m) in
      let '(disconnected', trace') :=
        match outcome with
        | inr _ => (disconnected, trace ++ [SendOk connection message_json])
        | inl e => ({[connection]} ∪ disconnected, trace ++ [SendRaised connection e])
        end in
      match touched with
      | None => delivery_pass send_text message_json ahead (m, disconnected', trace')
      | Some connections =>
          if bool_decide (size connections = size (active_connections m))
          then table_walk (mkManager connections, disconnected', trace')
          else (inl RuntimeError, (mkManager connections, disconnected', trace'))
      end
  end.

(** One iteration of [for connection in disconnected]. *)
Definition drop (st : WebSocketManager * list event) (connection : WebSocket)
    : WebSocketManager * list event :=
  (disconnect (fst st) connection, snd st ++ [Discarded connection]).

(** The result is how the call ended, the manager afterwards and the trace.
    An exception that leaves the first loop leaves the method: the second
    loop is not run. *)
Definition broadcast_spectral_data (send_text : Suspension)
    (spectrometer_id timestamp : string) (calibrated_readings : list float)
    (m : WebSocketManager) : (exn + unit) * WebSocketManager * list event :=
  if bool_decide (active_connections m = ∅) then (inr tt, m, [])
  else
    let message :=
      JDict (<["spectrometer_id" := JStr spectrometer_id]>
            (<["timestamp" := JStr timestamp]>
            (<["calibrated_readings" := json_of_floats calibrated_readings]> ∅))) in
    let message_json := json_dumps message in
    match delivery_pass send_text message_json (elements (active_connections m)) (m, ∅, []) with
    | (inr _, (m1, disconnected, trace1)) =>
        let '(m2, trace2) := foldl drop (m1, trace1) (elements disconnected) in
        (inr tt, m2, trace2)
    | (inl e, (m1, _, trace1)) => (inl e, m1, trace1)
    end.

(** The connections on which a trace shows a send, successful or not. *)
Definition send_target (ev : event) : option WebSocket :=
  match ev with
  | SendOk c _ => Some c
  | SendRaised c _ => Some c
  | Discarded _ => None
  end.

Definition attempted (trace : list event) : list WebSocket := omap send_target trace.

(** ** routers/spectrometers.py *)

Inductive HandlerResult (A : Type) :=
| Returned (a : A)
| HTTPException (status : Z)
| Uncaught (e : exn).
Arguments Returned {A} a.
Arguments HTTPException {A} status.
Arguments Uncaught {A} e.

(** [status_code not in (200, 201, 204)] *)
Definition accepted_status (s : Z) : bool :=
  Z.eqb s 200 || Z.eqb s 201 || Z.eqb s 204.

(** Returns the handler's outcome, the registry afterwards and the POSTs
    sent to the peripheral. *)
Definition set_control_wavelength (w : World) (spectrometer_id : string) (wavelength : float)
    (registry : DeviceRegistry)
    : HandlerResult SpectrometerConfig.t * DeviceRegistry * list (string * json) :=
  match get_spectrometer registry spectrometer_id with
  | None => (HTTPException 404, registry, [])
  | Some config =>
      if negb (SpectrometerConfig.is_monochromatic config) then (HTTPException 400, registry, [])
      else
        match get_device registry (SpectrometerConfig.device_id config) with
        | None => (HTTPException 404, registry, [])
        | Some device =>
            let url := "http://" +:+ DeviceInfo.address device +:+ ":"
                       +:+ pretty (DeviceInfo.port device) +:+ "/control_wavelength" in
            let payload := JDict (<["wavelength" := JFloat wavelength]> ∅) in
            match http_post w url payload with
            | inr response =>
                if negb (accepted_status (status_code response))
                then (HTTPException 502, registry, [(url, payload)])
                else
                  match update_spectrometer spectrometer_id
                          [SpectrometerConfig.kw_control_wavelength (Some wavelength)] registry with
                  | (inr (Some updated), registry') => (Returned updated, registry', [(url, payload)])
                  | (inr None, registry') => (HTTPException 500, registry', [(url, payload)])
                  | (inl e, registry') => (Uncaught e, registry', [(url, payload)])
                  end
            | inl TimeoutException => (HTTPException 504, registry, [(url, payload)])
            | inl RequestError => (HTTPException 502, registry, [(url, payload)])
            | inl e => (Uncaught e, registry, [(url, payload)])
            end
        end
  end.

(** Returns the handler's outcome, the registry and the manager afterwards,
    and the trace of the broadcast. *)
Definition post_spectral_data (send_text : Suspension)
    (spectrometer_id : string) (request : PostSpectralDataRequest.t)
    (registry : DeviceRegistry) (ws_manager : WebSocketManager)
    : HandlerResult unit * DeviceRegistry * WebSocketManager * list event :=
  match get_spectrometer registry spectrometer_id with
  | None => (HTTPException 404, registry, ws_manager, [])
  | Some config =>
      match PostSpectralDataRequest.getattr request "calibrated_readings",
            PostSpectralDataRequest.getattr request "wavelengths",
            PostSpectralDataRequest.getattr request "timestamp" with
      | inr (PostSpectralDataRequest.floats calibrated_readings),
        inr (PostSpectralDataRequest.floats wavelengths),
        inr (PostSpectralDataRequest.moment timestamp) =>
          let registry' :=
            store_spectral_data spectrometer_id calibrated_readings wavelengths timestamp registry in
          match get_spectral_data registry' spectrometer_id with
          | Some stored_data =>
              match broadcast_spectral_data send_text spectrometer_id
                      (isoformat (SpectralData.timestamp stored_data))
                      (SpectralData.calibrated_readings stored_data) ws_manager with
              | (inr _, ws_manager', trace) => (Returned tt, registry', ws_manager', trace)
              | (inl e, ws_manager', trace) => (Uncaught e, registry', ws_manager', trace)
              end
          | None => (Returned tt, registry', ws_manager, [])
          end
      | inl e, _, _ => (Uncaught e, registry, ws_manager, [])
      | _, inl e, _ => (Uncaught e, registry, ws_manager, [])
      | _, _, inl e => (Uncaught e, registry, ws_manager, [])
      | _, _, _ => (Uncaught ValidationError, registry, ws_manager, [])
      end
  end.

(** The handler of [GET /spectrometers/{id}/data]. *)
Definition get_spectral_data_handler (spectrometer_id : string) (registry : DeviceRegistry)
    : HandlerResult (option SpectralData.t) :=
  match get_spectrometer registry spectrometer_id with
  | None => HTTPException 404
  | Some config => Returned (get_spectral_data registry spectrometer_id)
  end.
End Runtime.

Arguments Returned {A} a.
Arguments HTTPException {A} status.
Arguments Uncaught {A} e.

(** The event that one [send_text] leaves in the trace, for a send that is
    awaited while the set is [connections]. *)
Definition send_event (send_text : Suspension) (message_json : string)
    (connections : gset WebSocket) (connection : WebSocket) : event :=
  match (send_text connection message_json connections).1 with
  | inr _ => SendOk connection message_json
  | inl e => SendRaised connection e
  end.

Definition raises (send_text : Suspension) (message_json : string)
    (connections : gset WebSocket) (connection : WebSocket) : bool :=
  match (send_text connection message_json connections).1 with
  | inr _ => false
  | inl _ => true
  end.

(** The texts a trace shows as delivered to one connection. *)
Definition received (trace : list event) (connection : WebSocket) : list string :=
  omap (λ ev, match ev with
              | SendOk c text => if decide (c = connection) then Some text else None
              | _ => None
              end) trace.

(** [json.dumps] of the broadcast message. *)
Definition message_of (json_dumps : json → string) (spectrometer_id timestamp : string)
    (calibrated_readings : list float) : string :=
  json_dumps
    (JDict (<["spectrometer_id" := JStr spectrometer_id]>
           (<["timestamp" := JStr timestamp]>
           (<["calibrated_readings" := json_of_floats calibrated_readings]> ∅)))).

(** ** Histories of the registry *)

(** One call of a mutating method of [DeviceRegistry].  An addition passes a
    newly constructed object. *)
Inductive Operation :=
| AddSpectrometer (config : SpectrometerConfig.t)
| UpdateSpectrometer (spectrometer_id : string) (kwargs : list SpectrometerConfig.kwarg)
| SetActiveSpectrometer (spectrometer_id : string)
| RemoveSpectrometer (spectrometer_id : string)
| StoreSpectralData (spectrometer_id : string) (calibrated_readings wavelengths : list float)
    (timestamp : datetime)
| AddVacuumChamber (config : VacuumChamberConfig.t)
| UpdateVacuumChamber (chamber_id : string) (kwargs : list VacuumChamberConfig.kwarg)
| SetActiveVacuumChamber (chamber_id : string)
| RemoveVacuumChamber (chamber_id : string)
| RemoveDevice (device_id : string)
| DiscoverDevice (w : World) (port : Z) (address monitoring_api_url : string).

Definition perform (r : DeviceRegistry) (op : Operation) : DeviceRegistry :=
  match op with
  | AddSpectrometer config => add_spectrometer config r
  | UpdateSpectrometer i kwargs => snd (update_spectrometer i kwargs r)
  | SetActiveSpectrometer i => snd (set_active_spectrometer i r)
  | RemoveSpectrometer i => snd (remove_spectrometer i r)
  | StoreSpectralData i readings wavelengths timestamp =>
      store_spectral_data i readings wavelengths timestamp r
  | AddVacuumChamber config => add_vacuum_chamber config r
  | UpdateVacuumChamber i kwargs => snd (update_vacuum_chamber i kwargs r)
  | SetActiveVacuumChamber i => snd (set_active_vacuum_chamber i r)
  | RemoveVacuumChamber i => snd (remove_vacuum_chamber i r)
  | RemoveDevice i => snd (remove_device i r)
  | DiscoverDevice w port address monitoring_api_url =>
      snd (discover_device w port address monitoring_api_url r)
  end.

(** The registry after a history, starting from [DeviceRegistry()]. *)
Definition run (history : list Operation) : DeviceRegistry :=
  foldl perform DeviceRegistry_init history.

(** At most one entry of a collection is flagged. *)
Definition at_most_one_active {A} (is_active : A → bool) (m : gmap string A) : Prop :=
  ∀ i j x y, m !! i = Some x → m !! j = Some y →
             is_active x = true → is_active y = true → i = j.

Definition single_active (r : DeviceRegistry) : Prop :=
  at_most_one_active SpectrometerConfig.is_active (spectrometers r)
  ∧ at_most_one_active VacuumChamberConfig.is_active (vacuum_chambers r).

(** Operations that leave the choice of the active resource to
    [set_active_*]: they add resources inactive, as every caller in the
    program does, and their patches do not raise [is_active]. *)
Definition spectrometer_kwarg_raises (kw : SpectrometerConfig.kwarg) : bool :=
  match kw with SpectrometerConfig.kw_is_active true => true | _ => false end.

Definition chamber_kwarg_raises (kw : VacuumChamberConfig.kwarg) : bool :=
  match kw with VacuumChamberConfig.kw_is_active true => true | _ => false end.

Definition leaves_selection (op : Operation) : bool :=
  match op with
  | AddSpectrometer config => negb (SpectrometerConfig.is_active config)
  | UpdateSpectrometer _ kwargs => negb (existsb spectrometer_kwarg_raises kwargs)
  | AddVacuumChamber config => negb (VacuumChamberConfig.is_active config)
  | UpdateVacuumChamber _ kwargs => negb (existsb chamber_kwarg_raises kwargs)
  | _ => true
  end.

(** ** Concrete registries and worlds used by the examples *)

Definition spectrometer_a : SpectrometerConfig.t :=
  SpectrometerConfig.mk "a" "dev-1" "Bench A" false None false 0.

Definition spectrometer_b : SpectrometerConfig.t :=
  SpectrometerConfig.mk "b" "dev-1" "Bench B" true None false 0.

Definition chamber_c : VacuumChamberConfig.t :=
  VacuumChamberConfig.mk "c" "dev-2" "Chamber C" TWO_COMPONENT (Some "H") None STOPPED false 0.

Definition device_1 : DeviceInfo.t :=
  DeviceInfo.mk "dev-1" SPECTROMETER 8100 "localhost" "Bench" CONNECTED ∅.

(** Two spectrometers and one chamber, nothing active, one stored sample. *)
Definition registry_ab : DeviceRegistry :=
  store_spectral_data "a" [S754_zero false] [S754_finite false 4837851162214400 (-43)] 7
    (add_vacuum_chamber chamber_c
       (add_spectrometer spectrometer_b
          (add_spectrometer spectrometer_a
             (with_devices DeviceRegistry_init (<["dev-1" := device_1]> ∅))))).

(** The same world with another behaviour of [client.post]. *)
Definition with_http_post (w : World) (post : string → json → exn + Response) : World :=
  mkWorld (http_get w) post (uuid4_device w) (uuid4_spectrometer w) (uuid4_vacuum_chamber w)
    (now_spectrometer w) (now_vacuum_chamber w).

(** A peripheral that answers [GET /device/info] with status 200 and the
    given body, and accepts the registration. *)
Definition peripheral (info : json) : World :=
  mkWorld (λ _, inr (mkResponse 200 (Some info)))
          (λ _ _, inr (mkResponse 200 None))
          "dev-uuid" "spec-uuid" "chamber-uuid" 11 12.

(** [{"type": "spectrometer", "name": "Virtual", "capabilities":
      {"has_spectrometer": true, "is_monochromatic": true, "has_vacuum_chamber": true}}] *)
Definition info_full : json :=
  JDict (<["type" := JStr "spectrometer"]>
        (<["name" := JStr "Virtual"]>
        (<["capabilities" :=
             JDict (<["has_spectrometer" := JBool true]>
                   (<["is_monochromatic" := JBool true]>
                   (<["has_vacuum_chamber" := JBool true]> ∅)))]> ∅))).

(** [{"name": "Virtual", "capabilities": {"has_spectrometer": true}}] *)
Definition info_without_type : json :=
  JDict (<["name" := JStr "Virtual"]>
        (<["capabilities" := JDict (<["has_spectrometer" := JBool true]> ∅)]> ∅)).

(** [{"type": "vacuum-chamber", "name": "Coater", "capabilities":
      {"has_spectrometer": true, "has_vacuum_chamber": true, "process_type": "four-component"}}] *)
Definition info_bad_process_type : json :=
  JDict (<["type" := JStr "vacuum-chamber"]>
        (<["name" := JStr "Coater"]>
        (<["capabilities" :=
             JDict (<["has_spectrometer" := JBool true]>
                   (<["has_vacuum_chamber" := JBool true]>
                   (<["process_type" := JStr "four-component"]> ∅)))]> ∅))).

(** Three subscribers, of which the second raises on every send. *)
Definition three_subscribers : WebSocketManager :=
  mkManager ({[1%positive]} ∪ {[2%positive]} ∪ {[3%positive]}).

Definition deaf_second : Suspension :=
  λ connection text connections,
    (if bool_decide (connection = 2%positive) then inl RequestError else inr tt, None).

(** The second subscriber has gone: the send to it raises, and while the
    broadcast waits in that send the subscriber's endpoint task in
    [server.py], whose [receive_text] raises too, calls
    [ws_manager.disconnect(websocket)]. *)
Definition closing_second : Suspension :=
  λ connection text connections,
    if bool_decide (connection = 2%positive)
    then (inl WebSocketDisconnect,
          Some (active_connections (disconnect (mkManager connections) 2%positive)))
    else (inr tt, None).

(** The hash table is not walked any further. *)
Definition walk_ends (st : loop_state) : (exn + unit) * loop_state := (inr tt, st).

(** A history that discovers a peripheral, adds a spectrometer by hand and
    moves the selection around. *)
Definition history_1 : list Operation :=
  [DiscoverDevice (peripheral info_full) 8100 "localhost" "http://monitor:8200";
   AddSpectrometer spectrometer_a;
   SetActiveSpectrometer "a";
   SetActiveVacuumChamber "chamber-uuid";
   UpdateSpectrometer "a" [SpectrometerConfig.kw_control_wavelength None;
                           SpectrometerConfig.kw_other "colour" JNull None eq_refl];
   SetActiveSpectrometer "spec-uuid";
   RemoveSpectrometer "a"].

(** A history that raises [is_active] through [update_spectrometer]. *)
Definition history_2 : list Operation :=
  [AddSpectrometer spectrometer_a;
   AddSpectrometer spectrometer_b;
   UpdateSpectrometer "a" [SpectrometerConfig.kw_is_active true];
   UpdateSpectrometer "b" [SpectrometerConfig.kw_is_active true]].

(** ** device_registry.py: the active resource *)

(** [m.values()] in some order.  The registry model keeps no insertion
    order, so the loops over [values()] take the sequence as an argument, and
    their properties are stated for every order. *)
Definition values_of {A} (m : gmap string A) (values : list A) : Prop :=
  values ≡ₚ (map_to_list m).*2.

(** [for spec in self.spectrometers.values(): if spec.is_active: return spec] *)
Definition get_active_spectrometer (values : list SpectrometerConfig.t)
    : option SpectrometerConfig.t :=
  find SpectrometerConfig.is_active values.

Definition get_active_vacuum_chamber (values : list VacuumChamberConfig.t)
    : option VacuumChamberConfig.t :=
  find VacuumChamberConfig.is_active values.

(** ** websocket_manager.py: connect *)

(** [await websocket.accept(); self.active_connections.add(websocket)] *)
Definition connect (accept : WebSocket → exn + unit) (m : WebSocketManager)
    (websocket : WebSocket) : (exn + unit) * WebSocketManager :=
  match accept websocket with
  | inr _ => (inr tt, mkManager ({[websocket]} ∪ active_connections m))
  | inl e => (inl e, m)
  end.

(** ** models.py: request and response bodies of the handlers *)

Module CreateSpectrometerRequest.
Record t := mk {
  device_id : string;
  name : string
}.
End CreateSpectrometerRequest.

Module SpectrometerDetails.
Record t := mk {
  id : string;
  device_id : string;
  name : string;
  is_monochromatic : bool;
  control_wavelength : option float;
  is_active : bool;
  latest_data : option SpectralData.t;
  device_info : DeviceInfo.t
}.
End SpectrometerDetails.

Module CreateVacuumChamberRequest.
Record t := mk {
  device_id : string;
  name : string;
  process_type : ProcessType
}.
End CreateVacuumChamberRequest.

Module VacuumChamberDetails.
Record t := mk {
  id : string;
  device_id : string;
  name : string;
  process_type : ProcessType;
  status : VacuumChamberStatus;
  material : option string;
  fraction : option float;
  is_active : bool;
  device_info : DeviceInfo.t
}.
End VacuumChamberDetails.

Module ActiveMonitoringStatus.
Record t := mk {
  spectrometer : option SpectrometerDetails.t;
  vacuum_chamber : option VacuumChamberDetails.t
}.
End ActiveMonitoringStatus.

Module DeviceConnectionResponse.
Record t := mk {
  device_id : string;
  device_name : string;
  spectrometer_id : option string;
  vacuum_chamber_id : option string
}.
End DeviceConnectionResponse.

(** [DeviceType.value], [ProcessType.value] *)
Definition DeviceType_value (t : DeviceType) : string :=
  match t with
  | SPECTROMETER => "spectrometer"
  | VACUUM_CHAMBER => "vacuum-chamber"
  end.

Definition ProcessType_value (p : ProcessType) : string :=
  match p with
  | TWO_COMPONENT => "two-component"
  | THREE_COMPONENT => "three-component"
  | COMPOSITE_TWO_COMPONENT => "composite-two-component"
  end.

(** ** routers/spectrometers.py: the other handlers *)

Module RouterSpectrometers.

Definition create_spectrometer (w : World) (request : CreateSpectrometerRequest.t)
    (registry : DeviceRegistry) : HandlerResult SpectrometerConfig.t * DeviceRegistry :=
  match get_device registry (CreateSpectrometerRequest.device_id request) with
  | None => (HTTPException 404, registry)
  | Some device =>
      match DeviceInfo.type device with
      | SPECTROMETER =>
          let is_monochromatic :=
            dict_get (DeviceInfo.capabilities device) "is_monochromatic" (JBool false) in
          match SpectrometerConfig_new w (CreateSpectrometerRequest.device_id request)
                  (CreateSpectrometerRequest.name request) is_monochromatic None false with
          | inr config => (Returned config, add_spectrometer config registry)
          | inl e => (Uncaught e, registry)
          end
      | VACUUM_CHAMBER => (HTTPException 400, registry)
      end
  end.

Definition activate_spectrometer (spectrometer_id : string) (registry : DeviceRegistry)
    : HandlerResult (option SpectrometerConfig.t) * DeviceRegistry :=
  match set_active_spectrometer spectrometer_id registry with
  | (false, registry') => (HTTPException 404, registry')
  | (true, registry') => (Returned (get_spectrometer registry' spectrometer_id), registry')
  end.

Definition delete_spectrometer (spectrometer_id : string) (registry : DeviceRegistry)
    : HandlerResult unit * DeviceRegistry :=
  match remove_spectrometer spectrometer_id registry with
  | (false, registry') => (HTTPException 404, registry')
  | (true, registry') => (Returned tt, registry')
  end.

Definition get_spectrometer (spectrometer_id : string) (registry : DeviceRegistry)
    : HandlerResult SpectrometerDetails.t :=
  match get_spectrometer registry spectrometer_id with
  | None => HTTPException 404
  | Some config =>
      match get_device registry (SpectrometerConfig.device_id config) with
      | None => HTTPException 404
      | Some device =>
          let latest_data := get_spectral_data registry spectrometer_id in
          Returned (SpectrometerDetails.mk
                      (SpectrometerConfig.id config)
                      (SpectrometerConfig.device_id config)
                      (SpectrometerConfig.name config)
                      (SpectrometerConfig.is_monochromatic config)
                      (SpectrometerConfig.control_wavelength config)
                      (SpectrometerConfig.is_active config)
                      latest_data device)
      end
  end.

End RouterSpectrometers.

(** ** routers/vacuum_chambers.py *)

(** [response.raise_for_status()] is httpx's; it decides by the status code,
    and the handlers take its verdict as [raise_for_status : Z → bool], true
    when it raises.  [upstream_ok] is true when the body of the handlers'
    [try] ran to its end: the POST returned and its status was let through. *)
Definition upstream_ok (raise_for_status : Z → bool) (answer : exn + Response) : bool :=
  match answer with
  | inr response => negb (raise_for_status (status_code response))
  | inl _ => false
  end.

Module RouterVacuumChambers.

Definition create_vacuum_chamber (w : World) (request : CreateVacuumChamberRequest.t)
    (registry : DeviceRegistry) : HandlerResult VacuumChamberConfig.t * DeviceRegistry :=
  match get_device registry (CreateVacuumChamberRequest.device_id request) with
  | None => (HTTPException 404, registry)
  | Some device =>
      match DeviceInfo.type device with
      | VACUUM_CHAMBER =>
          let config :=
            VacuumChamberConfig_new w (CreateVacuumChamberRequest.device_id request)
              (CreateVacuumChamberRequest.name request)
              (CreateVacuumChamberRequest.process_type request)
              None None STOPPED false in
          (Returned config, add_vacuum_chamber config registry)
      | SPECTROMETER => (HTTPException 400, registry)
      end
  end.

(** The POST of [start_deposition] and [stop_deposition] has no body; it is
    passed to [http_post] as [JNull].  The third component of the result is
    the list of POSTs sent to the peripheral. *)
Definition start_deposition (w : World) (raise_for_status : Z → bool) (chamber_id : string)
    (registry : DeviceRegistry)
    : HandlerResult VacuumChamberConfig.t * DeviceRegistry * list (string * json) :=
  match get_vacuum_chamber registry chamber_id with
  | None => (HTTPException 404, registry, [])
  | Some config =>
      match get_device registry (VacuumChamberConfig.device_id config) with
      | None => (HTTPException 404, registry, [])
      | Some device =>
          let device_url := "http://" +:+ DeviceInfo.address device +:+ ":"
                            +:+ pretty (DeviceInfo.port device) +:+ "/vacuum_chamber/start" in
          if upstream_ok raise_for_status (http_post w device_url JNull) then
            match update_vacuum_chamber chamber_id [VacuumChamberConfig.kw_status RUNNING]
                    registry with
            | (inr (Some updated), registry') => (Returned updated, registry', [(device_url, JNull)])
            | (inr None, registry') => (HTTPException 500, registry', [(device_url, JNull)])
            | (inl e, registry') => (Uncaught e, registry', [(device_url, JNull)])
            end
          else (HTTPException 500, registry, [(device_url, JNull)])
      end
  end.

Definition stop_deposition (w : World) (raise_for_status : Z → bool) (chamber_id : string)
    (registry : DeviceRegistry)
    : HandlerResult VacuumChamberConfig.t * DeviceRegistry * list (string * json) :=
  match get_vacuum_chamber registry chamber_id with
  | None => (HTTPException 404, registry, [])
  | Some config =>
      match get_device registry (VacuumChamberConfig.device_id config) with
      | None => (HTTPException 404, registry, [])
      | Some device =>
          let device_url := "http://" +:+ DeviceInfo.address device +:+ ":"
                            +:+ pretty (DeviceInfo.port device) +:+ "/vacuum_chamber/stop" in
          if upstream_ok raise_for_status (http_post w device_url JNull) then
            match update_vacuum_chamber chamber_id [VacuumChamberConfig.kw_status STOPPED]
                    registry with
            | (inr (Some updated), registry') => (Returned updated, registry', [(device_url, JNull)])
            | (inr None, registry') => (HTTPException 500, registry', [(device_url, JNull)])
            | (inl e, registry') => (Uncaught e, registry', [(device_url, JNull)])
            end
          else (HTTPException 500, registry, [(device_url, JNull)])
      end
  end.

Definition set_material (w : World) (raise_for_status : Z → bool) (chamber_id : string)
    (material : string) (fraction : float) (registry : DeviceRegistry)
    : HandlerResult VacuumChamberConfig.t * DeviceRegistry * list (string * json) :=
  match get_vacuum_chamber registry chamber_id with
  | None => (HTTPException 404, registry, [])
  | Some config =>
      match get_device registry (VacuumChamberConfig.device_id config) with
      | None => (HTTPException 404, registry, [])
      | Some device =>
          let device_url := "http://" +:+ DeviceInfo.address device +:+ ":"
                            +:+ pretty (DeviceInfo.port device) +:+ "/vacuum_chamber/material" in
          let payload := JDict (<["material" := JStr material]>
                               (<["fraction" := JFloat fraction]> ∅)) in
          if upstream_ok raise_for_status (http_post w device_url payload) then
            match update_vacuum_chamber chamber_id
                    [VacuumChamberConfig.kw_current_material (Some material);
                     VacuumChamberConfig.kw_current_fraction (Some fraction)] registry with
            | (inr (Some updated), registry') => (Returned updated, registry', [(device_url, payload)])
            | (inr None, registry') => (HTTPException 500, registry', [(device_url, payload)])
            | (inl e, registry') => (Uncaught e, registry', [(device_url, payload)])
            end
          else (HTTPException 500, registry, [(device_url, payload)])
      end
  end.

Definition set_fraction (chamber_id : string) (fraction : float) (registry : DeviceRegistry)
    : HandlerResult VacuumChamberConfig.t * DeviceRegistry :=
  match get_vacuum_chamber registry chamber_id with
  | None => (HTTPException 404, registry)
  | Some config =>
      match update_vacuum_chamber chamber_id
              [VacuumChamberConfig.kw_current_fraction (Some fraction)] registry with
      | (inr (Some updated), registry') => (Returned updated, registry')
      | (inr None, registry') => (HTTPException 500, registry')
      | (inl e, registry') => (Uncaught e, registry')
      end
  end.

Definition activate_vacuum_chamber (chamber_id : string) (registry : DeviceRegistry)
    : HandlerResult (option VacuumChamberConfig.t) * DeviceRegistry :=
  match set_active_vacuum_chamber chamber_id registry with
  | (false, registry') => (HTTPException 404, registry')
  | (true, registry') => (Returned (get_vacuum_chamber registry' chamber_id), registry')
  end.

Definition delete_vacuum_chamber (chamber_id : string) (registry : DeviceRegistry)
    : HandlerResult unit * DeviceRegistry :=
  match remove_vacuum_chamber chamber_id registry with
  | (false, registry') => (HTTPException 404, registry')
  | (true, registry') => (Returned tt, registry')
  end.

Definition get_vacuum_chamber (chamber_id : string) (registry : DeviceRegistry)
    : HandlerResult VacuumChamberDetails.t :=
  match get_vacuum_chamber registry chamber_id with
  | None => HTTPException 404
  | Some config =>
      match get_device registry (VacuumChamberConfig.device_id config) with
      | None => HTTPException 404
      | Some device =>
          Returned (VacuumChamberDetails.mk
                      (VacuumChamberConfig.id config)
                      (VacuumChamberConfig.device_id config)
                      (VacuumChamberConfig.name config)
                      (VacuumChamberConfig.process_type config)
                      (VacuumChamberConfig.status config)
                      (VacuumChamberConfig.current_material config)
                      (VacuumChamberConfig.current_fraction config)
                      (VacuumChamberConfig.is_active config)
                      device)
      end
  end.

End RouterVacuumChambers.

(** ** routers/devices.py *)

Module RouterDevices.

Definition connect_device (w : World) (port : Z) (address monitoring_api_url : string)
    (registry : DeviceRegistry) : HandlerResult DeviceConnectionResponse.t * DeviceRegistry :=
  match discover_device w port address monitoring_api_url registry with
  | ((None, _, _), registry') => (HTTPException 404, registry')
  | ((Some device_info, spectrometer_id, vacuum_chamber_id), registry') =>
      (Returned (DeviceConnectionResponse.mk (DeviceInfo.id device_info)
                   (DeviceInfo.name device_info) spectrometer_id vacuum_chamber_id),
       registry')
  end.

Definition disconnect_device (device_id : string) (registry : DeviceRegistry)
    : HandlerResult unit * DeviceRegistry :=
  match remove_device device_id registry with
  | (false, registry') => (HTTPException 404, registry')
  | (true, registry') => (Returned tt, registry')
  end.

Definition get_device (device_id : string) (registry : DeviceRegistry)
    : HandlerResult DeviceInfo.t :=
  match get_device registry device_id with
  | None => HTTPException 404
  | Some device => Returned device
  end.

End RouterDevices.

(** ** routers/monitoring.py *)

Module RouterMonitoring.

(** [spectrometer_values] and [chamber_values] are the two [values()]
    sequences that [get_active_*] walk through. *)
Definition get_active_monitoring (spectrometer_values : list SpectrometerConfig.t)
    (chamber_values : list VacuumChamberConfig.t) (registry : DeviceRegistry)
    : ActiveMonitoringStatus.t :=
  let active_spec := get_active_spectrometer spectrometer_values in
  let active_chamber := get_active_vacuum_chamber chamber_values in
  let spec_details :=
    match active_spec with
    | Some active_spec =>
        match get_device registry (SpectrometerConfig.device_id active_spec) with
        | Some device =>
            let latest_data := get_spectral_data registry (SpectrometerConfig.id active_spec) in
            Some (SpectrometerDetails.mk
                    (SpectrometerConfig.id active_spec)
                    (SpectrometerConfig.device_id active_spec)
                    (SpectrometerConfig.name active_spec)
                    (SpectrometerConfig.is_monochromatic active_spec)
                    (SpectrometerConfig.control_wavelength active_spec)
                    (SpectrometerConfig.is_active active_spec)
                    latest_data device)
        | None => None
        end
    | None => None
    end in
  let chamber_details :=
    match active_chamber with
    | Some active_chamber =>
        match get_device registry (VacuumChamberConfig.device_id active_chamber) with
        | Some device =>
            Some (VacuumChamberDetails.mk
                    (VacuumChamberConfig.id active_chamber)
                    (VacuumChamberConfig.device_id active_chamber)
                    (VacuumChamberConfig.name active_chamber)
                    (VacuumChamberConfig.process_type active_chamber)
                    (VacuumChamberConfig.status active_chamber)
                    (VacuumChamberConfig.current_material active_chamber)
                    (VacuumChamberConfig.current_fraction active_chamber)
                    (VacuumChamberConfig.is_active active_chamber)
                    device)
        | None => None
        end
    | None => None
    end in
  ActiveMonitoringStatus.mk spec_details chamber_details.

End RouterMonitoring.

(** ** The HTTP surface as a whole *)

(** What one request meets outside the process. *)
Record Outside := mkOutside {
  out_world : World;
  out_raise_for_status : Z → bool;
  out_send_text : Suspension;
  out_table_walk : loop_state → (exn + unit) * loop_state
}.

(** The requests that can change the registry, one per mutating endpoint. *)
Inductive HttpRequest :=
| ConnectDevice (port : Z) (address monitoring_api_url : string)
| DisconnectDevice (device_id : string)
| CreateSpectrometer (request : CreateSpectrometerRequest.t)
| SetControlWavelength (spectrometer_id : string) (wavelength : float)
| PostSpectralData (spectrometer_id : string) (request : PostSpectralDataRequest.t)
| ActivateSpectrometer (spectrometer_id : string)
| DeleteSpectrometer (spectrometer_id : string)
| CreateVacuumChamber (request : CreateVacuumChamberRequest.t)
| StartDeposition (chamber_id : string)
| StopDeposition (chamber_id : string)
| SetMaterial (chamber_id : string) (material : string) (fraction : float)
| SetFraction (chamber_id : string) (fraction : float)
| ActivateVacuumChamber (chamber_id : string)
| DeleteVacuumChamber (chamber_id : string).

(** The state of the server after one request. *)
Definition serve (json_dumps : json → string) (isoformat : datetime → string)
    (st : DeviceRegistry * WebSocketManager) (call : Outside * HttpRequest)
    : DeviceRegistry * WebSocketManager :=
  let '(registry, ws_manager) := st in
  let '(out, req) := call in
  let w := out_world out in
  match req with
  | ConnectDevice port address monitoring_api_url =>
      ((RouterDevices.connect_device w port address monitoring_api_url registry).2, ws_manager)
  | DisconnectDevice device_id =>
      ((RouterDevices.disconnect_device device_id registry).2, ws_manager)
  | CreateSpectrometer request =>
      ((RouterSpectrometers.create_spectrometer w request registry).2, ws_manager)
  | SetControlWavelength spectrometer_id wavelength =>
      ((set_control_wavelength w spectrometer_id wavelength registry).1.2, ws_manager)
  | PostSpectralData spectrometer_id request =>
      let '(_, registry', ws_manager', _) :=
        post_spectral_data json_dumps isoformat (out_table_walk out) (out_send_text out)
          spectrometer_id request registry ws_manager in
      (registry', ws_manager')
  | ActivateSpectrometer spectrometer_id =>
      ((RouterSpectrometers.activate_spectrometer spectrometer_id registry).2, ws_manager)
  | DeleteSpectrometer spectrometer_id =>
      ((RouterSpectrometers.delete_spectrometer spectrometer_id registry).2, ws_manager)
  | CreateVacuumChamber request =>
      ((RouterVacuumChambers.create_vacuum_chamber w request registry).2, ws_manager)
  | StartDeposition chamber_id =>
      ((RouterVacuumChambers.start_deposition w (out_raise_for_status out) chamber_id
          registry).1.2, ws_manager)
  | StopDeposition chamber_id =>
      ((RouterVacuumChambers.stop_deposition w (out_raise_for_status out) chamber_id
          registry).1.2, ws_manager)
  | SetMaterial chamber_id material fraction =>
      ((RouterVacuumChambers.set_material w (out_raise_for_status out) chamber_id material
          fraction registry).1.2, ws_manager)
  | SetFraction chamber_id fraction =>
      ((RouterVacuumChambers.set_fraction chamber_id fraction registry).2, ws_manager)
  | ActivateVacuumChamber chamber_id =>
      ((RouterVacuumChambers.activate_vacuum_chamber chamber_id registry).2, ws_manager)
  | DeleteVacuumChamber chamber_id =>
      ((RouterVacuumChambers.delete_vacuum_chamber chamber_id registry).2, ws_manager)
  end.

(** The server started by [create_app()] after a sequence of requests. *)
Definition serve_all (json_dumps : json → string) (isoformat : datetime → string)
    (calls : list (Outside * HttpRequest)) : DeviceRegistry * WebSocketManager :=
  foldl (serve json_dumps isoformat) (DeviceRegistry_init, WebSocketManager_init) calls.

(** Every stored object is found under its own [id]. *)
Definition keyed_by_id (r : DeviceRegistry) : Prop :=
  (∀ k d, devices r !! k = Some d → DeviceInfo.id d = k)
  ∧ (∀ k c, spectrometers r !! k = Some c → SpectrometerConfig.id c = k)
  ∧ (∀ k c, vacuum_chambers r !! k = Some c → VacuumChamberConfig.id c = k).

(** Only monochromatic spectrometers carry a control wavelength. *)
Definition wavelength_only_if_monochromatic (r : DeviceRegistry) : Prop :=
  ∀ k c, spectrometers r !! k = Some c →
         is_Some (SpectrometerConfig.control_wavelength c) →
         SpectrometerConfig.is_monochromatic c = true.

(** The two conditions on one spectrometer entry. *)
Definition spectrometer_ok (k : string) (c : SpectrometerConfig.t) : Prop :=
  SpectrometerConfig.id c = k
  ∧ (is_Some (SpectrometerConfig.control_wavelength c) →
     SpectrometerConfig.is_monochromatic c = true).

(** ** More concrete worlds *)

(** Nothing listens: the GET times out. *)
Definition nothing_listening : World :=
  mkWorld (λ _, inl TimeoutException) (λ _ _, inl TimeoutException)
          "dev-uuid" "spec-uuid" "chamber-uuid" 11 12.

(** A peripheral that answers every request with status 503. *)
Definition unavailable : World :=
  mkWorld (λ _, inr (mkResponse 503 None)) (λ _ _, inr (mkResponse 503 None))
          "dev-uuid" "spec-uuid" "chamber-uuid" 11 12.


(** A device of type vacuum-chamber that declares a spectrometer, and a
    registry that holds it with one running chamber. *)
Definition device_coater : DeviceInfo.t :=
  DeviceInfo.mk "dev-9" VACUUM_CHAMBER 8300 "coater.lab" "Coater" CONNECTED
    (<["has_spectrometer" := JBool true]> (<["has_vacuum_chamber" := JBool true]> ∅)).

Definition chamber_k : VacuumChamberConfig.t :=
  VacuumChamberConfig.mk "k" "dev-9" "Coater - Vacuum Chamber" THREE_COMPONENT (Some "H") None
    STOPPED false 5.

Definition registry_coater : DeviceRegistry :=
  add_vacuum_chamber chamber_k
    (with_devices DeviceRegistry_init (<["dev-9" := device_coater]> ∅)).

(** * Properties *)

(** ** Activation *)

Lemma lookup_set_active_spectrometer (r : DeviceRegistry) (i k : string) :
  is_Some (spectrometers r !! i) →
  spectrometers (set_active_spectrometer i r).2 !! k
  = SpectrometerConfig.set_is_active (bool_decide (k = i)) <$> spectrometers r !! k.
Proof.
  intros [c Hc]. unfold set_active_spectrometer. rewrite Hc. cbn.
  rewrite map_lookup_imap. by destruct (spectrometers r !! k).
Qed.

Lemma lookup_set_active_vacuum_chamber (r : DeviceRegistry) (i k : string) :
  is_Some (vacuum_chambers r !! i) →
  vacuum_chambers (set_active_vacuum_chamber i r).2 !! k
  = VacuumChamberConfig.set_is_active (bool_decide (k = i)) <$> vacuum_chambers r !! k.
Proof.
  intros [c Hc]. unfold set_active_vacuum_chamber. rewrite Hc. cbn.
  rewrite map_lookup_imap. by destruct (vacuum_chambers r !! k).
Qed.

Lemma set_active_spectrometer_frame (r : DeviceRegistry) (i : string) :
  let r' := (set_active_spectrometer i r).2 in
  devices r' = devices r ∧ vacuum_chambers r' = vacuum_chambers r
  ∧ spectral_data r' = spectral_data r ∧ dom (spectrometers r') = dom (spectrometers r).
Proof.
  unfold set_active_spectrometer. destruct (spectrometers r !! i) eqn:Hi; cbn; [|done].
  repeat split. apply set_eq. intros k. rewrite !elem_of_dom, map_lookup_imap.
  destruct (spectrometers r !! k); cbn; split; intros [? ?]; eauto; done.
Qed.

Lemma set_active_vacuum_chamber_frame (r : DeviceRegistry) (i : string) :
  let r' := (set_active_vacuum_chamber i r).2 in
  devices r' = devices r ∧ spectrometers r' = spectrometers r
  ∧ spectral_data r' = spectral_data r ∧ dom (vacuum_chambers r') = dom (vacuum_chambers r).
Proof.
  unfold set_active_vacuum_chamber. destruct (vacuum_chambers r !! i) eqn:Hi; cbn; [|done].
  repeat split. apply set_eq. intros k. rewrite !elem_of_dom, map_lookup_imap.
  destruct (vacuum_chambers r !! k); cbn; split; intros [? ?]; eauto; done.
Qed.

(** C1. Activating an id of a collection returns [True], flags that resource and
    no other of its kind, keeps the key set and leaves the other kind alone;
    activating an id that is not there returns [False] (the handlers' 404) and
    leaves the registry as it was.  This holds for spectrometers and for
    vacuum chambers. *)
Theorem set_active_selects_exactly_one (r : DeviceRegistry) (i : string) :
  (is_Some (spectrometers r !! i) →
     ∃ r', set_active_spectrometer i r = (true, r')
       ∧ (∃ c, spectrometers r' !! i = Some c ∧ SpectrometerConfig.is_active c = true)
       ∧ (∀ k c, k ≠ i → spectrometers r' !! k = Some c → SpectrometerConfig.is_active c = false)
       ∧ dom (spectrometers r') = dom (spectrometers r)
       ∧ vacuum_chambers r' = vacuum_chambers r)
  ∧ (spectrometers r !! i = None → set_active_spectrometer i r = (false, r))
  ∧ (is_Some (vacuum_chambers r !! i) →
     ∃ r', set_active_vacuum_chamber i r = (true, r')
       ∧ (∃ c, vacuum_chambers r' !! i = Some c ∧ VacuumChamberConfig.is_active c = true)
       ∧ (∀ k c, k ≠ i → vacuum_chambers r' !! k = Some c → VacuumChamberConfig.is_active c = false)
       ∧ dom (vacuum_chambers r') = dom (vacuum_chambers r)
       ∧ spectrometers r' = spectrometers r)
  ∧ (vacuum_chambers r !! i = None → set_active_vacuum_chamber i r = (false, r)).
Proof.
  split; [|split; [|split]].
  - intros Hi. exists (set_active_spectrometer i r).2.
    pose proof (lookup_set_active_spectrometer r i) as Hl.
    pose proof (set_active_spectrometer_frame r i) as (_ & Hv & _ & Hd).
    split; [|split; [|split; [|split]]]; try done.
    + unfold set_active_spectrometer. destruct Hi as [c ->]. done.
    + destruct Hi as [c Hc]. rewrite Hl, Hc by eauto. cbn.
      eexists; split; [done|]. cbn. by rewrite bool_decide_eq_true_2.
    + intros k c Hk. rewrite Hl by done. destruct (spectrometers r !! k); [|done].
      cbn. intros [= <-]. cbn. by rewrite bool_decide_eq_false_2.
  - intros Hi. unfold set_active_spectrometer. by rewrite Hi.
  - intros Hi. exists (set_active_vacuum_chamber i r).2.
    pose proof (lookup_set_active_vacuum_chamber r i) as Hl.
    pose proof (set_active_vacuum_chamber_frame r i) as (_ & Hv & _ & Hd).
    split; [|split; [|split; [|split]]]; try done.
    + unfold set_active_vacuum_chamber. destruct Hi as [c ->]. done.
    + destruct Hi as [c Hc]. rewrite Hl, Hc by eauto. cbn.
      eexists; split; [done|]. cbn. by rewrite bool_decide_eq_true_2.
    + intros k c Hk. rewrite Hl by done. destruct (vacuum_chambers r !! k); [|done].
      cbn. intros [= <-]. cbn. by rewrite bool_decide_eq_false_2.
  - intros Hi. unfold set_active_vacuum_chamber. by rewrite Hi.
Qed.

Lemma set_active_selects_exactly_one_witness :
  (∃ r', set_active_spectrometer "b" registry_ab = (true, r')
     ∧ (∃ c, spectrometers r' !! "b" = Some c ∧ SpectrometerConfig.is_active c = true)
     ∧ (∀ k c, k ≠ "b" → spectrometers r' !! k = Some c → SpectrometerConfig.is_active c = false))
  ∧ set_active_spectrometer "zz" registry_ab = (false, registry_ab)
  ∧ (∃ r', set_active_vacuum_chamber "c" registry_ab = (true, r')
     ∧ spectrometers r' = spectrometers registry_ab)
  ∧ set_active_vacuum_chamber "zz" registry_ab = (false, registry_ab).
Proof.
  destruct (set_active_selects_exactly_one registry_ab "b") as (Hb & _).
  destruct (set_active_selects_exactly_one registry_ab "c") as (_ & _ & Hc & _).
  destruct (set_active_selects_exactly_one registry_ab "zz") as (_ & Hz & _ & Hz').
  split; [|split; [|split]].
  - destruct Hb as (r' & H1 & H2 & H3 & _); [by eexists|]. by exists r'.
  - by apply Hz.
  - destruct Hc as (r' & H1 & _ & _ & _ & H5); [by eexists|]. by exists r'.
  - by apply Hz'.
Defined.

(** ** The sample store *)

Lemma store_then_get (r : DeviceRegistry) (i : string) (readings wavelengths : list float)
    (timestamp : datetime) :
  get_spectral_data (store_spectral_data i readings wavelengths timestamp r) i
  = Some (SpectralData.mk timestamp readings wavelengths).
Proof. unfold get_spectral_data, store_spectral_data. cbn. apply lookup_insert_eq. Qed.

Lemma store_overwrites (r : DeviceRegistry) (i : string) (readings1 wavelengths1 readings2 wavelengths2 : list float)
    (timestamp1 timestamp2 : datetime) :
  store_spectral_data i readings2 wavelengths2 timestamp2
    (store_spectral_data i readings1 wavelengths1 timestamp1 r)
  = store_spectral_data i readings2 wavelengths2 timestamp2 r.
Proof. unfold store_spectral_data, with_spectral_data. cbn. by rewrite insert_insert_eq. Qed.

(** C5. For a registered spectrometer, the handler of the data POST stops at
    [request.timestamp], an attribute its request class does not declare:
    it ends in an uncaught [AttributeError], stores nothing and broadcasts
    nothing, so a read afterwards returns what was stored before the post. *)
Theorem post_spectral_data_stores_nothing
    (json_dumps : json → string) (isoformat : datetime → string)
    (table_walk : loop_state → (exn + unit) * loop_state) (send_text : Suspension)
    (i : string) (request : PostSpectralDataRequest.t)
    (r : DeviceRegistry) (m : WebSocketManager) :
  is_Some (spectrometers r !! i) →
  post_spectral_data json_dumps isoformat table_walk send_text i request r m
    = (Uncaught AttributeError, r, m, [])
  ∧ get_spectral_data_handler i r = Returned (spectral_data r !! i).
Proof.
  intros [c Hc]. unfold post_spectral_data, get_spectral_data_handler, get_spectrometer.
  rewrite Hc. done.
Qed.

Lemma post_spectral_data_stores_nothing_witness :
  post_spectral_data (λ _, "{}") (λ _, "1970-01-01T00:00:00") walk_ends deaf_second "b"
    (PostSpectralDataRequest.mk [S754_zero false] [S754_finite false 4837851162214400 (-43)])
    registry_ab (mkManager {[1%positive]})
    = (Uncaught AttributeError, registry_ab, mkManager {[1%positive]}, [])
  ∧ get_spectral_data_handler "b" registry_ab = Returned None.
Proof.
  apply (post_spectral_data_stores_nothing (λ _, "{}") (λ _, "1970-01-01T00:00:00")
           walk_ends deaf_second "b"
           (PostSpectralDataRequest.mk [S754_zero false] [S754_finite false 4837851162214400 (-43)])
           registry_ab (mkManager {[1%positive]})).
  by eexists.
Defined.

(** ** Removal *)

(** C6. Removing a registered spectrometer returns [True] and deletes both the
    resource and its stored sample, so a read of the sample gives [None]; other
    ids keep their resources and samples.  Removing an id that is not
    registered returns [False] and changes nothing. *)
Theorem remove_spectrometer_drops_sample (r : DeviceRegistry) (i : string) :
  (is_Some (spectrometers r !! i) →
     ∃ r', remove_spectrometer i r = (true, r')
       ∧ get_spectrometer r' i = None
       ∧ get_spectral_data r' i = None
       ∧ (∀ k, k ≠ i → get_spectrometer r' k = get_spectrometer r k
                       ∧ get_spectral_data r' k = get_spectral_data r k)
       ∧ devices r' = devices r ∧ vacuum_chambers r' = vacuum_chambers r)
  ∧ (spectrometers r !! i = None → remove_spectrometer i r = (false, r)).
Proof.
  unfold remove_spectrometer, get_spectrometer, get_spectral_data. split.
  - intros [c Hc]. rewrite Hc. cbn. eexists. split; [done|].
    destruct (spectral_data r !! i) eqn:Hd; cbn.
    + rewrite !lookup_delete_eq. repeat split; try done;
        by rewrite lookup_delete_ne.
    + rewrite lookup_delete_eq, Hd. repeat split; try done.
      by rewrite lookup_delete_ne.
  - intros Hn. by rewrite Hn.
Qed.

Lemma remove_spectrometer_drops_sample_witness :
  (∃ r', remove_spectrometer "a" registry_ab = (true, r')
     ∧ get_spectrometer r' "a" = None ∧ get_spectral_data r' "a" = None)
  ∧ get_spectral_data registry_ab "a" ≠ None
  ∧ remove_spectrometer "zz" registry_ab = (false, registry_ab).
Proof.
  destruct (remove_spectrometer_drops_sample registry_ab "a") as (Ha & _).
  destruct (remove_spectrometer_drops_sample registry_ab "zz") as (_ & Hz).
  split; [|split].
  - destruct Ha as (r' & H1 & H2 & H3 & _); [by eexists|]. by exists r'.
  - done.
  - by apply Hz.
Defined.

(** ** Setting the control wavelength *)

(** C9. For a registered spectrometer that is not monochromatic and a valid
    request (wavelength above zero), the handler answers 400, the registry is
    the one it was given, in particular the spectrometer with its
    [control_wavelength], and no request was sent to the peripheral. *)
Theorem set_control_wavelength_rejects_polychromatic
    (w : World) (i : string) (wavelength : float) (r : DeviceRegistry)
    (c : SpectrometerConfig.t) :
  spectrometers r !! i = Some c →
  SpectrometerConfig.is_monochromatic c = false →
  SetControlWavelengthRequest_valid wavelength = true →
  ∃ r', set_control_wavelength w i wavelength r = (HTTPException 400, r', [])
        ∧ r' = r
        ∧ (∃ c', get_spectrometer r' i = Some c'
             ∧ SpectrometerConfig.control_wavelength c' = SpectrometerConfig.control_wavelength c).
Proof.
  intros Hc Hm _. exists r. unfold set_control_wavelength, get_spectrometer.
  rewrite Hc, Hm. cbn. eauto.
Qed.

Lemma set_control_wavelength_rejects_polychromatic_witness :
  ∃ r', set_control_wavelength (peripheral info_full) "a"
          (S754_finite false 4837851162214400 (-43)) registry_ab
        = (HTTPException 400, r', [])
        ∧ r' = registry_ab
        ∧ (∃ c', get_spectrometer r' "a" = Some c'
             ∧ SpectrometerConfig.control_wavelength c' = None).
Proof.
  apply (set_control_wavelength_rejects_polychromatic (peripheral info_full) "a"
           (S754_finite false 4837851162214400 (-43)) registry_ab spectrometer_a);
    reflexivity.
Defined.

(** ** Discovery *)

Lemma register_callback_silent (w : World) (port : Z) (address monitoring_api_url : string)
    (s v : option string) (r : DeviceRegistry) :
  register_callback w port address monitoring_api_url s v r = (inr tt, r).
Proof.
  unfold register_callback, try_except, bind, lift, ret.
  destruct (http_post w _ _) as [e|resp]; [done|].
  by destruct (Z.eqb _ _).
Qed.

(** [discover_device] in terms of the answer to the GET and of [provision]. *)
Lemma discover_device_cases (w : World) (port : Z) (address monitoring_api_url : string)
    (r : DeviceRegistry) :
  discover_device w port address monitoring_api_url r
  = match http_get w (device_info_url address port) with
    | inl _ => ((None, None, None), r)
    | inr response =>
        if Z.eqb (status_code response) 200 then
          match provision w port address response r with
          | (inr (d, s, v), r') => ((Some d, s, v), r')
          | (inl _, r') => ((None, None, None), r')
          end
        else ((None, None, None), r)
    end.
Proof.
  unfold discover_device, try_except, bind, lift, ret.
  destruct (http_get w _) as [e|response]; [by destruct e|].
  destruct (Z.eqb _ _); [|done].
  destruct (provision w port address response r) as [[e|[[d s] v]] r'].
  - by destruct e.
  - by rewrite register_callback_silent.
Qed.

(** What a successful [provision] has read and stored. *)
Lemma provision_inversion (w : World) (port : Z) (address : string) (response : Response)
    (r r' : DeviceRegistry) (d : DeviceInfo.t) (s v : option string) :
  provision w port address response r = (inr (d, s, v), r') →
  ∃ m,
    body response = Some (JDict m)
    ∧ (∃ tv, m !! "type" = Some tv ∧ DeviceType_of tv = inr (DeviceInfo.type d))
    ∧ DeviceInfo.id d = uuid4_device w
    ∧ DeviceInfo.port d = port
    ∧ DeviceInfo.address d = address
    ∧ JStr (DeviceInfo.name d) = dict_get m "name" (JStr "Unknown Device")
    ∧ JDict (DeviceInfo.capabilities d) = dict_get m "capabilities" (JDict ∅)
    ∧ DeviceInfo.status d = CONNECTED
    ∧ devices r' = <[DeviceInfo.id d := d]> (devices r)
    ∧ spectral_data r' = spectral_data r
    ∧ (if truthy (dict_get (DeviceInfo.capabilities d) "has_spectrometer" JNull)
       then ∃ b,
           validate_bool (dict_get (DeviceInfo.capabilities d) "is_monochromatic" (JBool false))
             = inr b
           ∧ s = Some (uuid4_spectrometer w)
           ∧ spectrometers r'
             = <[uuid4_spectrometer w :=
                   SpectrometerConfig.mk (uuid4_spectrometer w) (DeviceInfo.id d)
                     (DeviceInfo.name d +:+ " - Spectrometer") b None false
                     (now_spectrometer w)]> (spectrometers r)
       else s = None ∧ spectrometers r' = spectrometers r)
    ∧ (if truthy (dict_get (DeviceInfo.capabilities d) "has_vacuum_chamber" JNull)
       then ∃ p,
           ProcessType_of (dict_get (DeviceInfo.capabilities d) "process_type"
                             (JStr "two-component")) = inr p
           ∧ v = Some (uuid4_vacuum_chamber w)
           ∧ vacuum_chambers r'
             = <[uuid4_vacuum_chamber w :=
                   VacuumChamberConfig.mk (uuid4_vacuum_chamber w) (DeviceInfo.id d)
                     (DeviceInfo.name d +:+ " - Vacuum Chamber") p (Some "H") None STOPPED
                     false (now_vacuum_chamber w)]> (vacuum_chambers r)
       else v = None ∧ vacuum_chambers r' = vacuum_chambers r).
Proof.
  unfold provision, bind, lift, modify, ret. intros H.
  destruct (Response_json response) as [e|data] eqn:Hjson; [done|].
  destruct (getitem data "type") as [e|tv] eqn:Htype; [done|].
  destruct (DeviceType_of tv) as [e|ty] eqn:Hty; [done|].
  destruct (get data "name" _) as [e|nm] eqn:Hname; [done|].
  destruct (get data "capabilities" _) as [e|cp] eqn:Hcaps; [done|].
  destruct (DeviceInfo_new _ _ _ _ _ _ _) as [e|di] eqn:Hdi; [done|].
  cbn in H.
  unfold Response_json in Hjson. destruct (body response) as [data'|] eqn:Hbody; [|done].
  injection Hjson as ->.
  destruct data as [| | | | | |m]; try done. cbn in Htype, Hname, Hcaps.
  destruct (m !! "type") as [tv'|] eqn:Hmt; [|done]. injection Htype as ->.
  injection Hname as <-. injection Hcaps as <-.
  unfold DeviceInfo_new in Hdi.
  destruct (validate_str _) as [e|nm] eqn:Hnm; [done|].
  destruct (validate_dict _) as [e|cp] eqn:Hcp; [done|].
  injection Hdi as <-. cbn in H.
  unfold validate_str in Hnm. destruct (dict_get m "name" _) eqn:Hn in Hnm; try done.
  injection Hnm as ->.
  unfold validate_dict in Hcp. destruct (dict_get m "capabilities" _) eqn:Hc in Hcp; try done.
  injection Hcp as ->.
  unfold SpectrometerConfig_new, VacuumChamberConfig_new in H.
  destruct (truthy (dict_get cp "has_spectrometer" JNull)) eqn:Hhs;
    destruct (truthy (dict_get cp "has_vacuum_chamber" JNull)) eqn:Hhv;
    repeat match type of H with
           | context [validate_bool ?x] => destruct (validate_bool x) eqn:?; [done|]
           | context [ProcessType_of ?x] => destruct (ProcessType_of x) eqn:?; [done|]
           end;
    cbn in H; injection H as <- <- <- <-;
    exists m; cbn; rewrite ?Hhs, ?Hhv; repeat split; eauto.
Qed.

Lemma DeviceType_of_other (tv : json) :
  tv ≠ JStr "spectrometer" → tv ≠ JStr "vacuum-chamber" → DeviceType_of tv = inl ValueError.
Proof.
  intros H1 H2. destruct tv; try done. cbn.
  destruct (String.eqb_spec s "spectrometer") as [->|_]; [done|].
  by destruct (String.eqb_spec s "vacuum-chamber") as [->|_].
Qed.

(** The soft failures of step 1: the GET raised, or answered another status
    than 200.  Nothing is stored. *)
Lemma discover_device_soft_failure (w : World) (port : Z) (address monitoring_api_url : string)
    (r : DeviceRegistry) :
  (∃ e, http_get w (device_info_url address port) = inl e)
  ∨ (∃ response, http_get w (device_info_url address port) = inr response
                 ∧ status_code response ≠ 200) →
  discover_device w port address monitoring_api_url r = ((None, None, None), r).
Proof.
  rewrite discover_device_cases. intros [[e ->]|(response & -> & Hs)]; [done|].
  by destruct (Z.eqb_spec (status_code response) 200).
Qed.

(** C3. A peripheral answers 200 with a valid type, both capability flags and
    the process type "four-component".  [discover_device] returns the
    no-device outcome, and the registry it leaves holds the device and the
    spectrometer created before [ProcessType] raised. *)
Theorem discover_device_leaves_partial_state :
  ∃ r', discover_device (peripheral info_bad_process_type) 8100 "localhost" "http://monitor:8200"
          DeviceRegistry_init = ((None, None, None), r')
        ∧ r' ≠ DeviceRegistry_init
        ∧ is_Some (devices r' !! "dev-uuid")
        ∧ is_Some (spectrometers r' !! "spec-uuid")
        ∧ vacuum_chambers r' = ∅.
Proof.
  eexists. split; [vm_compute; reflexivity|].
  split; [|split; [|split]].
  - intros H. by apply (f_equal (λ x, devices x !! "dev-uuid")) in H.
  - by eexists.
  - by eexists.
  - done.
Qed.

(** C10. When the GET answers 200 with a JSON object that has no "type" key, or
    whose "type" is neither "spectrometer" nor "vacuum-chamber", the body of
    the [try] raises ([KeyError], resp. [ValueError]) before anything is
    stored, and [discover_device] itself returns [(None, None, None)] with the
    registry it was given. *)
Theorem discover_device_rejects_bad_type (w : World) (port : Z) (address monitoring_api_url : string)
    (r : DeviceRegistry) (m : gmap string json) :
  http_get w (device_info_url address port) = inr (mkResponse 200 (Some (JDict m))) →
  (m !! "type" = None
   ∨ ∃ tv, m !! "type" = Some tv ∧ tv ≠ JStr "spectrometer" ∧ tv ≠ JStr "vacuum-chamber") →
  (∃ e, provision w port address (mkResponse 200 (Some (JDict m))) r = (inl e, r)
        ∧ (e = KeyError ∨ e = ValueError))
  ∧ discover_device w port address monitoring_api_url r = ((None, None, None), r).
Proof.
  intros Hget Hty.
  assert (∃ e, provision w port address (mkResponse 200 (Some (JDict m))) r = (inl e, r)
               ∧ (e = KeyError ∨ e = ValueError)) as (e & Hp & He).
  { unfold provision, bind, lift. cbn.
    destruct Hty as [->|(tv & -> & H1 & H2)]; [by eauto|].
    rewrite DeviceType_of_other by done. eauto. }
  split; [by eauto|].
  rewrite discover_device_cases, Hget. cbn [status_code].
  change (200 =? 200) with true. cbv iota. by rewrite Hp.
Qed.

Lemma discover_device_rejects_bad_type_witness :
  discover_device (peripheral info_without_type) 8100 "localhost" "http://monitor:8200" registry_ab
  = ((None, None, None), registry_ab).
Proof.
  refine (proj2 (discover_device_rejects_bad_type (peripheral info_without_type) 8100
                   "localhost" "http://monitor:8200" registry_ab _ eq_refl _)).
  left. reflexivity.
Defined.

(** C4 (as amended). When [discover_device] returns a device, the GET answered
    200 with a JSON object, the device is stored connected under its new id
    with the body's name, or "Unknown Device" without one, and the body's
    capabilities, or none.  A spectrometer is stored exactly when
    [capabilities.get("has_spectrometer")] is truthy: its [is_monochromatic] is
    the validated [capabilities.get("is_monochromatic", False)], it has no
    control wavelength and is inactive, and its id is returned; otherwise the
    returned id is [None] and the collection is unchanged.  A vacuum chamber is
    stored exactly when [capabilities.get("has_vacuum_chamber")] is truthy:
    its process type is [capabilities.get("process_type", "two-component")],
    its material "H", it has no fraction, is stopped and inactive, and its id
    is returned; otherwise the returned id is [None] and the collection is
    unchanged. *)
Theorem discover_device_provisions_by_capability
    (w : World) (port : Z) (address monitoring_api_url : string)
    (r r' : DeviceRegistry) (d : DeviceInfo.t) (s v : option string) :
  discover_device w port address monitoring_api_url r = ((Some d, s, v), r') →
  ∃ m,
    http_get w (device_info_url address port) = inr (mkResponse 200 (Some (JDict m)))
    ∧ JStr (DeviceInfo.name d) = dict_get m "name" (JStr "Unknown Device")
    ∧ JDict (DeviceInfo.capabilities d) = dict_get m "capabilities" (JDict ∅)
    ∧ DeviceInfo.status d = CONNECTED
    ∧ devices r' = <[DeviceInfo.id d := d]> (devices r)
    ∧ (if truthy (dict_get (DeviceInfo.capabilities d) "has_spectrometer" JNull)
       then ∃ b,
           validate_bool (dict_get (DeviceInfo.capabilities d) "is_monochromatic" (JBool false))
             = inr b
           ∧ s = Some (uuid4_spectrometer w)
           ∧ spectrometers r'
             = <[uuid4_spectrometer w :=
                   SpectrometerConfig.mk (uuid4_spectrometer w) (DeviceInfo.id d)
                     (DeviceInfo.name d +:+ " - Spectrometer") b None false
                     (now_spectrometer w)]> (spectrometers r)
       else s = None ∧ spectrometers r' = spectrometers r)
    ∧ (if truthy (dict_get (DeviceInfo.capabilities d) "has_vacuum_chamber" JNull)
       then ∃ p,
           ProcessType_of (dict_get (DeviceInfo.capabilities d) "process_type"
                             (JStr "two-component")) = inr p
           ∧ v = Some (uuid4_vacuum_chamber w)
           ∧ vacuum_chambers r'
             = <[uuid4_vacuum_chamber w :=
                   VacuumChamberConfig.mk (uuid4_vacuum_chamber w) (DeviceInfo.id d)
                     (DeviceInfo.name d +:+ " - Vacuum Chamber") p (Some "H") None STOPPED
                     false (now_vacuum_chamber w)]> (vacuum_chambers r)
       else v = None ∧ vacuum_chambers r' = vacuum_chambers r).
Proof.
  rewrite discover_device_cases.
  destruct (http_get w _) as [e|[status body]] eqn:Hget; [done|]. cbn [status_code].
  destruct (Z.eqb_spec status 200) as [->|_]; [|done].
  destruct (provision w port address _ r) as [[e|[[d0 s0] v0]] r0] eqn:Hp; [done|].
  intros [= -> -> -> ->].
  apply provision_inversion in Hp as (m & Hb & _ & _ & _ & _ & Hn & Hc & Hs & Hd & _ & Hsp & Hvc).
  cbn in Hb. subst body. exists m. done.
Qed.

Lemma discover_device_provisions_by_capability_witness :
  ∃ m,
    http_get (peripheral info_full) (device_info_url "localhost" 8100)
      = inr (mkResponse 200 (Some (JDict m)))
    ∧ m !! "name" = Some (JStr "Virtual")
    ∧ (discover_device (peripheral info_full) 8100 "localhost" "http://monitor:8200"
         DeviceRegistry_init).1.1.2 = Some "spec-uuid".
Proof.
  destruct (discover_device (peripheral info_full) 8100 "localhost" "http://monitor:8200"
              DeviceRegistry_init) as [[[o s] v] r'] eqn:E.
  assert (o = Some (DeviceInfo.mk "dev-uuid" SPECTROMETER 8100 "localhost" "Virtual" CONNECTED
                      (<["has_spectrometer" := JBool true]>
                      (<["is_monochromatic" := JBool true]>
                      (<["has_vacuum_chamber" := JBool true]> ∅))))) as ->.
  { apply (f_equal (λ x, x.1.1.1)) in E. cbn in E. rewrite <- E. vm_compute. reflexivity. }
  destruct (discover_device_provisions_by_capability _ _ _ _ _ _ _ _ _ E)
    as (m & Hget & Hname & _ & _ & _ & Hsp & _).
  exists m. split; [exact Hget|]. split.
  - injection Hget as <-. reflexivity.
  - cbn in Hsp. destruct Hsp as (b & _ & -> & _). reflexivity.
Defined.

(** C4, as stated, fails on a 200 answer without "type": the flag
    [has_spectrometer] is truthy, and no spectrometer is created. *)
Lemma discover_device_provisions_counterexample :
  ∃ m caps,
    http_get (peripheral info_without_type) (device_info_url "localhost" 8100)
      = inr (mkResponse 200 (Some (JDict m)))
    ∧ m !! "capabilities" = Some (JDict caps)
    ∧ truthy (dict_get caps "has_spectrometer" JNull) = true
    ∧ discover_device (peripheral info_without_type) 8100 "localhost" "http://monitor:8200"
        DeviceRegistry_init
      = ((None, None, None), DeviceRegistry_init).
Proof.
  eexists _, _. split; [reflexivity|]. split; [reflexivity|]. split; [reflexivity|].
  vm_compute. reflexivity.
Qed.

(** C8. Once the GET has answered 200 and the device and its resources are
    stored, the outcome of the registration POST, whatever it is (a raise, a
    status other than 200, or 200), changes nothing: [discover_device] returns
    the device and the ids, and the registry holds the device and a resource
    of that device under each returned id. *)
Theorem registration_failure_is_not_fatal
    (w : World) (post : string → json → exn + Response)
    (port : Z) (address monitoring_api_url : string) (response : Response)
    (r r1 : DeviceRegistry) (d : DeviceInfo.t) (s v : option string) :
  http_get w (device_info_url address port) = inr response →
  status_code response = 200 →
  provision w port address response r = (inr (d, s, v), r1) →
  discover_device (with_http_post w post) port address monitoring_api_url r
    = ((Some d, s, v), r1)
  ∧ devices r1 !! DeviceInfo.id d = Some d
  ∧ (∀ i, s = Some i →
       ∃ c, spectrometers r1 !! i = Some c
            ∧ SpectrometerConfig.device_id c = DeviceInfo.id d)
  ∧ (∀ i, v = Some i →
       ∃ c, vacuum_chambers r1 !! i = Some c
            ∧ VacuumChamberConfig.device_id c = DeviceInfo.id d).
Proof.
  intros Hget Hs Hp. split.
  - rewrite discover_device_cases.
    change (http_get (with_http_post w post)) with (http_get w).
    change (provision (with_http_post w post)) with (provision w).
    rewrite Hget, Hs, Hp. reflexivity.
  - apply provision_inversion in Hp as (m & _ & _ & _ & _ & _ & _ & _ & _ & Hd & _ & Hsp & Hvc).
    split; [by rewrite Hd, lookup_insert_eq|]. split.
    + intros i ->. destruct (truthy _); [|by destruct Hsp].
      destruct Hsp as (b & _ & [= ->] & ->). rewrite lookup_insert_eq. eauto.
    + intros i ->. destruct (truthy (dict_get _ "has_vacuum_chamber" _)); [|by destruct Hvc].
      destruct Hvc as (p & _ & [= ->] & ->). rewrite lookup_insert_eq. eauto.
Qed.

Lemma registration_failure_is_not_fatal_witness :
  ∃ d r1,
    discover_device (with_http_post (peripheral info_full) (λ _ _, inl RequestError))
      8100 "localhost" "http://monitor:8200" DeviceRegistry_init
    = ((Some d, Some "spec-uuid", Some "chamber-uuid"), r1)
    ∧ devices r1 !! DeviceInfo.id d = Some d.
Proof.
  destruct (provision (peripheral info_full) 8100 "localhost"
              (mkResponse 200 (Some info_full)) DeviceRegistry_init)
    as [[e|[[d s] v]] r1] eqn:Hp.
  - exfalso. vm_compute in Hp. discriminate Hp.
  - destruct (registration_failure_is_not_fatal (peripheral info_full)
                (λ _ _, inl RequestError) 8100 "localhost" "http://monitor:8200"
                (mkResponse 200 (Some info_full)) DeviceRegistry_init r1 d s v
                eq_refl eq_refl Hp) as (Hd & Hdev & _).
    exists d, r1. split; [|exact Hdev].
    rewrite Hd. vm_compute in Hp. injection Hp as _ <- <- _. reflexivity.
Defined.

(** ** Broadcast *)

Section DeliveryPass.
Variable table_walk : loop_state → (exn + unit) * loop_state.
Variables (send_text : Suspension) (msg : string).

Lemma delivery_pass_step_quiet (c : WebSocket) (l : list WebSocket) (m : WebSocketManager)
    (D : gset WebSocket) (T : list event) :
  (send_text c msg (active_connections m)).2 = None →
  delivery_pass table_walk send_text msg (c :: l) (m, D, T)
  = delivery_pass table_walk send_text msg l
      (m, (if raises send_text msg (active_connections m) c then {[c]} ∪ D else D),
       T ++ [send_event send_text msg (active_connections m) c]).
Proof.
  intros Hq. cbn [delivery_pass]. unfold raises, send_event.
  destruct (send_text c msg (active_connections m)) as [[e|[]] touched]; cbn in *; by subst.
Qed.

Lemma delivery_pass_step_changed (c : WebSocket) (l : list WebSocket) (m : WebSocketManager)
    (D : gset WebSocket) (T : list event) (connections : gset WebSocket) :
  (send_text c msg (active_connections m)).2 = Some connections →
  size connections ≠ size (active_connections m) →
  delivery_pass table_walk send_text msg (c :: l) (m, D, T)
  = (inl RuntimeError,
     (mkManager connections,
      (if raises send_text msg (active_connections m) c then {[c]} ∪ D else D),
      T ++ [send_event send_text msg (active_connections m) c])).
Proof.
  intros Hq Hs. cbn [delivery_pass]. unfold raises, send_event.
  destruct (send_text c msg (active_connections m)) as [[e|[]] touched]; cbn in *; subst;
    by rewrite bool_decide_eq_false_2.
Qed.

(** A pass during which no task touches the set goes through every entry. *)
Lemma delivery_pass_quiet (l : list WebSocket) (m : WebSocketManager) (D : gset WebSocket)
    (T : list event) :
  (∀ c, c ∈ l → (send_text c msg (active_connections m)).2 = None) →
  delivery_pass table_walk send_text msg l (m, D, T)
  = (inr tt,
     (m, list_to_set (filter (λ c, raises send_text msg (active_connections m) c) l) ∪ D,
      T ++ (send_event send_text msg (active_connections m) <$> l))).
Proof.
  revert D T. induction l as [|c l IH]; intros D T Hq.
  - cbn. f_equal. f_equal; [f_equal; set_solver|by rewrite app_nil_r].
  - rewrite delivery_pass_step_quiet by (apply Hq; by left).
    rewrite IH by (intros c' Hc'; apply Hq; by right).
    rewrite filter_cons, <- app_assoc. cbn [fmap list_fmap app].
    destruct (raises send_text msg (active_connections m) c); case_decide; try done;
      f_equal; f_equal; f_equal; set_solver.
Qed.

(** A pass is cut short at the first send during which the set changes
    size. *)
Lemma delivery_pass_cut (before after : list WebSocket) (f : WebSocket) (m : WebSocketManager)
    (D : gset WebSocket) (T : list event) (connections : gset WebSocket) :
  (∀ c, c ∈ before → (send_text c msg (active_connections m)).2 = None) →
  (send_text f msg (active_connections m)).2 = Some connections →
  size connections ≠ size (active_connections m) →
  delivery_pass table_walk send_text msg (before ++ f :: after) (m, D, T)
  = (inl RuntimeError,
     (mkManager connections,
      list_to_set (filter (λ c, raises send_text msg (active_connections m) c) (before ++ [f])) ∪ D,
      T ++ (send_event send_text msg (active_connections m) <$> before ++ [f]))).
Proof.
  intros Hq Hf Hs. revert D T. induction before as [|c before IH]; intros D T.
  - cbn [app]. rewrite (delivery_pass_step_changed _ _ _ _ _ connections) by done.
    rewrite filter_cons, filter_nil. cbn [fmap list_fmap].
    destruct (raises send_text msg (active_connections m) f); case_decide; try done;
      f_equal; f_equal; f_equal; set_solver.
  - cbn [app]. rewrite delivery_pass_step_quiet by (apply Hq; by left).
    rewrite IH by (intros c' Hc'; apply Hq; by right).
    rewrite filter_cons, <- app_assoc. cbn [fmap list_fmap app].
    destruct (raises send_text msg (active_connections m) c); case_decide; try done;
      f_equal; f_equal; f_equal; set_solver.
Qed.
End DeliveryPass.

Lemma foldl_drop (l : list WebSocket) (m : WebSocketManager) (T : list event) :
  foldl drop (m, T) l
  = (mkManager (active_connections m ∖ list_to_set l), T ++ (Discarded <$> l)).
Proof.
  revert m T. induction l as [|c l IH]; intros [X] T; cbn [foldl].
  - cbn. f_equal; [f_equal; set_solver|by rewrite app_nil_r].
  - change (drop ({| active_connections := X |}, T) c)
      with (mkManager (X ∖ {[c]}), T ++ [Discarded c]).
    rewrite IH. cbn. rewrite <- app_assoc. f_equal. f_equal. set_solver.
Qed.

(** The trace and the final set of a broadcast during which no task touches
    the set. *)
Lemma broadcast_spectral_data_trace (json_dumps : json → string)
    (table_walk : loop_state → (exn + unit) * loop_state)
    (send_text : Suspension) (sid ts : string) (readings : list float)
    (m : WebSocketManager) :
  let msg := message_of json_dumps sid ts readings in
  let failed := filter (λ c, raises send_text msg (active_connections m) c)
                  (active_connections m) in
  (∀ c, c ∈ active_connections m → (send_text c msg (active_connections m)).2 = None) →
  broadcast_spectral_data json_dumps table_walk send_text sid ts readings m
  = (inr tt, mkManager (active_connections m ∖ failed),
     (send_event send_text msg (active_connections m) <$> elements (active_connections m))
     ++ (Discarded <$> elements failed)).
Proof.
  intros msg failed Hq. unfold broadcast_spectral_data.
  fold (message_of json_dumps sid ts readings). fold msg. case_bool_decide as He.
  - destruct m as [X]. cbn in *. subst X. subst failed.
    rewrite filter_empty_L, difference_empty_L, elements_empty; [done|apply _].
  - rewrite delivery_pass_quiet by (intros c Hc; apply Hq; by apply elem_of_elements).
    rewrite foldl_drop. cbn.
    assert (list_to_set (filter (λ c, raises send_text msg (active_connections m) c)
                           (elements (active_connections m))) ∪ ∅
            = failed) as ->.
    { apply set_eq. intros c. subst failed.
      rewrite elem_of_union, elem_of_list_to_set, list_elem_of_filter, elem_of_elements,
        elem_of_filter. set_solver. }
    f_equal. f_equal. f_equal. apply set_eq. intros c.
    rewrite !elem_of_difference, elem_of_list_to_set, elem_of_elements. done.
Qed.

Lemma attempted_send_events (send_text : Suspension) (msg : string) (X : gset WebSocket)
    (l : list WebSocket) :
  attempted (send_event send_text msg X <$> l) = l.
Proof.
  unfold attempted. induction l as [|c l IH]; [done|]. cbn. rewrite IH.
  unfold send_event. by destruct (send_text c msg X).1.
Qed.

Lemma attempted_discards (l : list WebSocket) : attempted (Discarded <$> l) = [].
Proof. unfold attempted. by induction l. Qed.

Lemma received_send_events (send_text : Suspension) (msg : string) (X : gset WebSocket)
    (l : list WebSocket) (c : WebSocket) :
  NoDup l →
  received (send_event send_text msg X <$> l) c
  = if bool_decide (c ∈ l) then (if raises send_text msg X c then [] else [msg]) else [].
Proof.
  unfold received. induction 1 as [|c' l Hc' Hl IH]; [done|]. cbn. rewrite IH.
  unfold send_event, raises.
  destruct (decide (c' = c)) as [->|Hne].
  - rewrite (bool_decide_eq_true_2 (c ∈ c :: l)) by left.
    rewrite (bool_decide_eq_false_2 (c ∈ l)) by done.
    destruct (send_text c msg X).1; cbn; [done|]. by rewrite decide_True.
  - rewrite (bool_decide_ext (c ∈ c' :: l) (c ∈ l)) by (rewrite elem_of_cons; naive_solver).
    destruct (send_text c' msg X).1; cbn; [done|]. by rewrite decide_False.
Qed.

Lemma send_event_not_discarded (send_text : Suspension) (msg : string) (X : gset WebSocket)
    (l : list WebSocket) (c : WebSocket) :
  Discarded c ∉ send_event send_text msg X <$> l.
Proof.
  rewrite list_elem_of_fmap. intros (c' & Hc' & _). unfold send_event in Hc'.
  by destruct (send_text c' msg X).1.
Qed.

(** C7. A broadcast is cut short when the subscriber set changes size while
    it waits in a send.  Let the subscribers be walked in the order
    [before ++ f :: after]; let the sends to [before] succeed, and let the
    send to [f] raise while another task (the endpoint of [f], which
    discards it, or a subscriber that joins) leaves the set with another
    size.  Then the broadcast raises [RuntimeError] to its caller; the
    subscribers [after] are not tried and receive nothing; no subscriber is
    removed by the broadcast, whose second loop is not reached: the set is
    what the other task left. *)
Theorem broadcast_raises_when_the_set_changes
    (json_dumps : json → string) (table_walk : loop_state → (exn + unit) * loop_state)
    (send_text : Suspension) (sid ts : string) (readings : list float)
    (m : WebSocketManager) (before after : list WebSocket) (f : WebSocket) (e : exn)
    (connections : gset WebSocket) :
  elements (active_connections m) = before ++ f :: after →
  (∀ c, c ∈ before →
        send_text c (message_of json_dumps sid ts readings) (active_connections m)
        = (inr tt, None)) →
  send_text f (message_of json_dumps sid ts readings) (active_connections m)
    = (inl e, Some connections) →
  size connections ≠ size (active_connections m) →
  ∃ trace,
    broadcast_spectral_data json_dumps table_walk send_text sid ts readings m
      = (inl RuntimeError, mkManager connections, trace)
    ∧ attempted trace = before ++ [f]
    ∧ (∀ c, c ∈ before → received trace c = [message_of json_dumps sid ts readings])
    ∧ (∀ c, c ∈ after → received trace c = [])
    ∧ (∀ c, Discarded c ∉ trace).
Proof.
  intros Hel Hok Hf Hs. set (msg := message_of json_dumps sid ts readings) in *.
  assert (NoDup (before ++ f :: after)) as Hnd by (rewrite <- Hel; apply NoDup_elements).
  assert (NoDup (before ++ [f])) as Hnd'.
  { apply NoDup_app in Hnd as (H1 & H2 & H3). apply NoDup_app. split; [done|]. split.
    - intros c Hc Hc'. apply (H2 c Hc). apply list_elem_of_singleton in Hc' as ->. by left.
    - apply NoDup_singleton. }
  exists (send_event send_text msg (active_connections m) <$> before ++ [f]).
  split; [|split; [apply attempted_send_events|split; [|split]]].
  - unfold broadcast_spectral_data. fold (message_of json_dumps sid ts readings). fold msg.
    rewrite bool_decide_eq_false_2.
    + rewrite Hel.
      rewrite (delivery_pass_cut table_walk send_text msg before after f m ∅ [] connections);
        [done| |by rewrite Hf|done].
      intros c Hc. by rewrite (Hok c Hc).
    + intros He. rewrite He, elements_empty in Hel. by destruct before.
  - intros c Hc. rewrite received_send_events by done.
    rewrite bool_decide_eq_true_2 by (apply elem_of_app; by left).
    unfold raises. by rewrite (Hok c Hc).
  - intros c Hc. rewrite received_send_events by done.
    rewrite bool_decide_eq_false_2; [done|].
    intros Hin. apply NoDup_app in Hnd as (_ & H2 & H3).
    apply elem_of_app in Hin as [Hin|Hin].
    + apply (H2 c Hin). by right.
    + apply list_elem_of_singleton in Hin as ->. by apply NoDup_cons in H3 as [H3 _].
  - intros c. apply send_event_not_discarded.
Qed.

Lemma broadcast_raises_when_the_set_changes_witness :
  ∃ trace,
    broadcast_spectral_data (λ _, "{}") walk_ends closing_second "a" "1970-01-01T00:00:00"
      [S754_zero false] three_subscribers
    = (inl RuntimeError, disconnect three_subscribers 2%positive, trace)
    ∧ attempted trace = [3%positive; 2%positive]
    ∧ received trace 1%positive = []
    ∧ 1%positive ∈ active_connections (disconnect three_subscribers 2%positive).
Proof.
  destruct (broadcast_raises_when_the_set_changes (λ _, "{}") walk_ends closing_second
              "a" "1970-01-01T00:00:00" [S754_zero false] three_subscribers
              [3%positive] [1%positive] 2%positive WebSocketDisconnect
              (active_connections (disconnect three_subscribers 2%positive)))
    as (trace & Hb & Ha & _ & Hr & _).
  - vm_compute. reflexivity.
  - intros c Hc. apply list_elem_of_singleton in Hc as ->. reflexivity.
  - reflexivity.
  - vm_compute. lia.
  - exists trace. split; [exact Hb|]. split; [exact Ha|]. split.
    + apply Hr. by left.
    + apply elem_of_difference. split; [|by rewrite elem_of_singleton].
      apply elem_of_union. left. apply elem_of_union. left. by apply elem_of_singleton.
Defined.

(** ** The single-active invariant *)

Section AtMostOne.
Context {A : Type} (is_active : A → bool).

Lemma at_most_one_active_empty : at_most_one_active is_active ∅.
Proof. intros i j x y Hi. by rewrite lookup_empty in Hi. Qed.

(** Overwriting an entry by one that is flagged only if the old one was. *)
Lemma at_most_one_active_replace (m : gmap string A) (k : string) (x x' : A) :
  at_most_one_active is_active m →
  m !! k = Some x →
  (is_active x' = true → is_active x = true) →
  at_most_one_active is_active (<[k := x']> m).
Proof.
  intros Hm Hk Hx i j a b. rewrite !lookup_insert.
  repeat case_decide; subst; intros; simplify_eq; eauto.
Qed.

Lemma at_most_one_active_insert_inactive (m : gmap string A) (k : string) (x : A) :
  at_most_one_active is_active m →
  is_active x = false →
  at_most_one_active is_active (<[k := x]> m).
Proof.
  intros Hm Hx i j a b. rewrite !lookup_insert.
  repeat case_decide; subst; intros; simplify_eq; eauto; congruence.
Qed.

Lemma at_most_one_active_delete (m : gmap string A) (k : string) :
  at_most_one_active is_active m → at_most_one_active is_active (delete k m).
Proof.
  intros Hm i j a b. rewrite !lookup_delete_Some. intros [_ Hi] [_ Hj]. eauto.
Qed.
End AtMostOne.

Lemma patch_spectrometer_keeps_inactive (kwargs : list SpectrometerConfig.kwarg)
    (c : SpectrometerConfig.t) :
  existsb spectrometer_kwarg_raises kwargs = false →
  SpectrometerConfig.is_active
    (patch SpectrometerConfig.hasattr SpectrometerConfig.setattr c kwargs).2 = true →
  SpectrometerConfig.is_active c = true.
Proof.
  revert c. induction kwargs as [|kw kwargs IH]; intros c; cbn [existsb patch]; [done|].
  rewrite orb_false_iff. intros [Hkw Hrest].
  destruct kw as [| | | | |[]| |key value [e|] other]; cbn; try done;
    intros Hact; by apply IH in Hact.
Qed.

Lemma patch_chamber_keeps_inactive (kwargs : list VacuumChamberConfig.kwarg)
    (c : VacuumChamberConfig.t) :
  existsb chamber_kwarg_raises kwargs = false →
  VacuumChamberConfig.is_active
    (patch VacuumChamberConfig.hasattr VacuumChamberConfig.setattr c kwargs).2 = true →
  VacuumChamberConfig.is_active c = true.
Proof.
  revert c. induction kwargs as [|kw kwargs IH]; intros c; cbn [existsb patch]; [done|].
  rewrite orb_false_iff. intros [Hkw Hrest].
  destruct kw as [| | | | | | |[]| |key value [e|] other]; cbn; try done;
    intros Hact; by apply IH in Hact.
Qed.

(** What [update_*] leaves in the registry, whether the patch raised or
    not. *)
Lemma update_spectrometer_snd (i : string) (kwargs : list SpectrometerConfig.kwarg)
    (r : DeviceRegistry) :
  (update_spectrometer i kwargs r).2
  = match spectrometers r !! i with
    | Some c =>
        with_spectrometers r
          (<[i := (patch SpectrometerConfig.hasattr SpectrometerConfig.setattr c kwargs).2]>
             (spectrometers r))
    | None => r
    end.
Proof.
  unfold update_spectrometer. destruct (spectrometers r !! i) as [c|]; [|done].
  by destruct (patch _ _ c kwargs) as [[e|[]] c'].
Qed.

Lemma update_vacuum_chamber_snd (i : string) (kwargs : list VacuumChamberConfig.kwarg)
    (r : DeviceRegistry) :
  (update_vacuum_chamber i kwargs r).2
  = match vacuum_chambers r !! i with
    | Some c =>
        with_vacuum_chambers r
          (<[i := (patch VacuumChamberConfig.hasattr VacuumChamberConfig.setattr c kwargs).2]>
             (vacuum_chambers r))
    | None => r
    end.
Proof.
  unfold update_vacuum_chamber. destruct (vacuum_chambers r !! i) as [c|]; [|done].
  by destruct (patch _ _ c kwargs) as [[e|[]] c'].
Qed.

(** Whatever its outcome, [provision] adds inactive resources only. *)
Lemma provision_adds_inactive (w : World) (port : Z) (address : string) (response : Response)
    (r : DeviceRegistry) :
  let r' := (provision w port address response r).2 in
  (spectrometers r' = spectrometers r
   ∨ ∃ k c, SpectrometerConfig.is_active c = false
            ∧ spectrometers r' = <[k := c]> (spectrometers r))
  ∧ (vacuum_chambers r' = vacuum_chambers r
     ∨ ∃ k c, VacuumChamberConfig.is_active c = false
              ∧ vacuum_chambers r' = <[k := c]> (vacuum_chambers r)).
Proof.
  unfold provision, bind, lift, modify, ret.
  destruct (Response_json response) as [e|data]; [by split; left|].
  destruct (getitem data "type") as [e|tv]; [by split; left|].
  destruct (DeviceType_of tv) as [e|ty]; [by split; left|].
  destruct (get data "name" _) as [e|nm]; [by split; left|].
  destruct (get data "capabilities" _) as [e|cp]; [by split; left|].
  destruct (DeviceInfo_new _ _ _ _ _ _ _) as [e|di]; [by split; left|].
  cbn. unfold SpectrometerConfig_new.
  destruct (truthy (dict_get _ "has_spectrometer" _)); [destruct (validate_bool _)|];
    cbn; try (by split; left);
    (destruct (truthy (dict_get _ "has_vacuum_chamber" _)); [destruct (ProcessType_of _)|]);
    cbn; split; first [by left | right; eexists _, _; split; [|reflexivity]; done].
Qed.

Lemma perform_keeps_single_active (r : DeviceRegistry) (op : Operation) :
  leaves_selection op = true → single_active r → single_active (perform r op).
Proof.
  intros Hop [Hs Hv]. destruct op; cbn [perform leaves_selection] in *.
  - split; [|done]. apply at_most_one_active_insert_inactive; [done|].
    by destruct (SpectrometerConfig.is_active config).
  - rewrite update_spectrometer_snd. destruct (spectrometers r !! _) as [c|] eqn:Hc; [|done].
    split; [|done]. cbn. eapply at_most_one_active_replace; [done..|].
    apply patch_spectrometer_keeps_inactive. by destruct (existsb _ _).
  - destruct (spectrometers r !! spectrometer_id) as [c|] eqn:Hc;
      [|unfold set_active_spectrometer; by rewrite Hc].
    pose proof (set_active_spectrometer_frame r spectrometer_id) as (_ & Hf & _ & _).
    split; [|by rewrite Hf]. intros i j x y.
    rewrite !lookup_set_active_spectrometer by eauto.
    destruct (spectrometers r !! i), (spectrometers r !! j); cbn; try done.
    intros [= <-] [= <-]. cbn. do 2 case_bool_decide; congruence.
  - unfold remove_spectrometer. destruct (spectrometers r !! _); [|done].
    cbn. destruct (spectral_data r !! _); cbn; split; try done;
      by apply at_most_one_active_delete.
  - done.
  - split; [done|]. apply at_most_one_active_insert_inactive; [done|].
    by destruct (VacuumChamberConfig.is_active config).
  - rewrite update_vacuum_chamber_snd. destruct (vacuum_chambers r !! _) as [c|] eqn:Hc; [|done].
    split; [done|]. cbn. eapply at_most_one_active_replace; [done..|].
    apply patch_chamber_keeps_inactive. by destruct (existsb _ _).
  - destruct (vacuum_chambers r !! chamber_id) as [c|] eqn:Hc;
      [|unfold set_active_vacuum_chamber; by rewrite Hc].
    pose proof (set_active_vacuum_chamber_frame r chamber_id) as (_ & Hf & _ & _).
    split; [by rewrite Hf|]. intros i j x y.
    rewrite !lookup_set_active_vacuum_chamber by eauto.
    destruct (vacuum_chambers r !! i), (vacuum_chambers r !! j); cbn; try done.
    intros [= <-] [= <-]. cbn. do 2 case_bool_decide; congruence.
  - unfold remove_vacuum_chamber. destruct (vacuum_chambers r !! _); [|done].
    cbn. split; [done|]. by apply at_most_one_active_delete.
  - unfold remove_device. by destruct (devices r !! _).
  - rewrite discover_device_cases.
    destruct (http_get w _) as [e|response]; [done|].
    destruct (Z.eqb _ _); [|done].
    pose proof (provision_adds_inactive w port address response r) as [H1 H2].
    destruct (provision w port address response r) as [[e|[[d s] v]] r']; cbn in *.
    all: split.
    all: try (destruct H1 as [->|(k & c & Hc & ->)];
              [done|by apply at_most_one_active_insert_inactive]).
    all: destruct H2 as [->|(k & c & Hc & ->)];
              [done|by apply at_most_one_active_insert_inactive].
Qed.

(** C2 (as amended). Starting from an empty registry, after any history of
    operations that add resources inactive and whose patches do not set
    [is_active] to true (additions, updates, activations, removals, stored
    samples and discoveries, successful or not), at most one spectrometer is
    active and at most one vacuum chamber is active. *)
Theorem single_active_is_invariant (history : list Operation) :
  Forall (λ op, leaves_selection op = true) history →
  single_active (run history).
Proof.
  unfold run.
  assert (single_active DeviceRegistry_init) as Hinit.
  { split; apply at_most_one_active_empty. }
  revert Hinit. generalize DeviceRegistry_init as r.
  induction history as [|op history IH]; intros r Hr Hall; [done|].
  inversion Hall as [|? ? Hop Hrest]; subst. cbn.
  apply IH; [|done]. by apply perform_keeps_single_active.
Qed.

Lemma single_active_is_invariant_witness :
  single_active (run history_1)
  ∧ ∃ c, spectrometers (run history_1) !! "spec-uuid" = Some c
         ∧ SpectrometerConfig.is_active c = true.
Proof.
  split.
  - apply (single_active_is_invariant history_1). repeat constructor.
  - eexists. split; [vm_compute; reflexivity|reflexivity].
Defined.

(** C2, as stated, fails: two updates whose patch is [is_active=True] leave
    two active spectrometers. *)
Lemma single_active_counterexample :
  ¬ single_active (run history_2).
Proof.
  intros [H _].
  assert ("a" = "b") as Hab; [|done].
  eapply H; vm_compute; reflexivity.
Qed.

(** * Further properties of the registry *)

Lemma registry_eq (r1 r2 : DeviceRegistry) :
  devices r1 = devices r2 → spectrometers r1 = spectrometers r2 →
  vacuum_chambers r1 = vacuum_chambers r2 → spectral_data r1 = spectral_data r2 →
  r1 = r2.
Proof. destruct r1, r2. cbn. by intros -> -> -> ->. Qed.

(** X1. [add_spectrometer] stores the object under its own id and replaces
    what was there: a known id keeps the key set, a new id adds one key.
    Other spectrometers, the other collections and a sample already stored
    under that id are left as they were. *)
Theorem add_spectrometer_replaces (c : SpectrometerConfig.t) (r : DeviceRegistry) :
  get_spectrometer (add_spectrometer c r) (SpectrometerConfig.id c) = Some c
  ∧ (∀ k, k ≠ SpectrometerConfig.id c →
          get_spectrometer (add_spectrometer c r) k = get_spectrometer r k)
  ∧ (is_Some (get_spectrometer r (SpectrometerConfig.id c)) →
     dom (spectrometers (add_spectrometer c r)) = dom (spectrometers r))
  ∧ (get_spectrometer r (SpectrometerConfig.id c) = None →
     size (spectrometers (add_spectrometer c r)) = S (size (spectrometers r)))
  ∧ spectral_data (add_spectrometer c r) = spectral_data r
  ∧ devices (add_spectrometer c r) = devices r
  ∧ vacuum_chambers (add_spectrometer c r) = vacuum_chambers r.
Proof.
  unfold get_spectrometer, add_spectrometer. cbn.
  split; [apply lookup_insert_eq|].
  split; [intros k Hk; by rewrite lookup_insert_ne|].
  split; [|split; [|done]].
  - intros Hs. rewrite dom_insert_L. apply elem_of_dom in Hs. set_solver.
  - intros Hn. by apply map_size_insert_None.
Qed.

Lemma add_spectrometer_replaces_witness :
  dom (spectrometers (add_spectrometer
                        (SpectrometerConfig.set_is_active true spectrometer_a) registry_ab))
    = dom (spectrometers registry_ab)
  ∧ size (spectrometers (add_spectrometer spectrometer_a DeviceRegistry_init)) = 1%nat.
Proof.
  split.
  - apply (add_spectrometer_replaces
             (SpectrometerConfig.set_is_active true spectrometer_a) registry_ab).
    by eexists.
  - apply (add_spectrometer_replaces spectrometer_a DeviceRegistry_init). reflexivity.
Defined.

(** X2. A second [remove_spectrometer] of the same id returns [False] and
    changes nothing. *)
Theorem remove_spectrometer_twice (r : DeviceRegistry) (i : string) :
  remove_spectrometer i (remove_spectrometer i r).2 = (false, (remove_spectrometer i r).2).
Proof.
  unfold remove_spectrometer at 2 3.
  destruct (spectrometers r !! i) eqn:Hi; cbn.
  - unfold remove_spectrometer. destruct (spectral_data r !! i); cbn;
      by rewrite lookup_delete_eq.
  - unfold remove_spectrometer. by rewrite Hi.
Qed.

(** X3. Adding a spectrometer under an id that holds neither a spectrometer
    nor a sample and removing it again gives back the registry. *)
Theorem add_then_remove_spectrometer (c : SpectrometerConfig.t) (r : DeviceRegistry) :
  spectrometers r !! SpectrometerConfig.id c = None →
  spectral_data r !! SpectrometerConfig.id c = None →
  remove_spectrometer (SpectrometerConfig.id c) (add_spectrometer c r) = (true, r).
Proof.
  intros Hs Hd. unfold remove_spectrometer, add_spectrometer. cbn.
  rewrite lookup_insert_eq, Hd. f_equal.
  apply registry_eq; cbn; try done. rewrite delete_insert_eq. by apply delete_id.
Qed.

Lemma add_then_remove_spectrometer_witness :
  remove_spectrometer "a" (add_spectrometer spectrometer_a DeviceRegistry_init)
  = (true, DeviceRegistry_init).
Proof.
  apply (add_then_remove_spectrometer spectrometer_a DeviceRegistry_init); reflexivity.
Defined.

Section PatchLemmas.
Context {T K : Type} (hasattr : T → K → bool) (setattr : T → K → exn + T).


End PatchLemmas.



(** X5. Whatever the patch, [update_spectrometer] never adds, removes or
    moves an entry: the key set is the same, every other entry is the same,
    and so are the other collections.  In particular a patch of [id] changes
    the attribute and not the key under which the object is found. *)
Theorem update_spectrometer_never_rekeys (i : string)
    (kwargs : list SpectrometerConfig.kwarg) (r : DeviceRegistry) :
  dom (spectrometers (update_spectrometer i kwargs r).2) = dom (spectrometers r)
  ∧ (∀ k, k ≠ i → get_spectrometer (update_spectrometer i kwargs r).2 k = get_spectrometer r k)
  ∧ devices (update_spectrometer i kwargs r).2 = devices r
  ∧ vacuum_chambers (update_spectrometer i kwargs r).2 = vacuum_chambers r
  ∧ spectral_data (update_spectrometer i kwargs r).2 = spectral_data r
  ∧ (∀ j c, get_spectrometer r i = Some c → j ≠ i →
       ∃ c', get_spectrometer (update_spectrometer i [SpectrometerConfig.kw_id j] r).2 i = Some c'
             ∧ SpectrometerConfig.id c' = j
             ∧ get_spectrometer (update_spectrometer i [SpectrometerConfig.kw_id j] r).2 j
               = get_spectrometer r j).
Proof.
  rewrite !update_spectrometer_snd. unfold get_spectrometer.
  split; [|split; [|split; [|split; [|split]]]].
  - destruct (spectrometers r !! i) eqn:Hi; cbn; [|done].
    rewrite dom_insert_L. assert (i ∈ dom (spectrometers r)) by (apply elem_of_dom; eauto).
    set_solver.
  - intros k Hk. destruct (spectrometers r !! i); cbn; [|done]. by rewrite lookup_insert_ne.
  - by destruct (spectrometers r !! i).
  - by destruct (spectrometers r !! i).
  - by destruct (spectrometers r !! i).
  - intros j c Hi Hj. rewrite !update_spectrometer_snd, Hi. cbn.
    rewrite lookup_insert_eq, lookup_insert_ne by done. eauto.
Qed.

Lemma update_spectrometer_never_rekeys_witness :
  ∃ c', get_spectrometer (update_spectrometer "a" [SpectrometerConfig.kw_id "q"] registry_ab).2 "a"
          = Some c'
        ∧ SpectrometerConfig.id c' = "q"
        ∧ get_spectrometer (update_spectrometer "a" [SpectrometerConfig.kw_id "q"] registry_ab).2 "q"
          = get_spectrometer registry_ab "q".
Proof.
  destruct (update_spectrometer_never_rekeys "a" [] registry_ab) as (_ & _ & _ & _ & _ & H).
  apply (H "q" spectrometer_a); [reflexivity|done].
Defined.

Lemma set_is_active_twice (b1 b2 : bool) (c : SpectrometerConfig.t) :
  SpectrometerConfig.set_is_active b2 (SpectrometerConfig.set_is_active b1 c)
  = SpectrometerConfig.set_is_active b2 c.
Proof. done. Qed.

Lemma set_active_spectrometer_snd (r : DeviceRegistry) (i : string) :
  is_Some (spectrometers r !! i) →
  set_active_spectrometer i r = (true, (set_active_spectrometer i r).2).
Proof. intros [c Hc]. unfold set_active_spectrometer. by rewrite Hc. Qed.

(** X6. The last activation wins: activating [j] after [i] leaves the registry
    that activating [j] alone leaves.  With [j = i], activating twice is
    activating once. *)
Theorem set_active_spectrometer_last_wins (r : DeviceRegistry) (i j : string) :
  is_Some (spectrometers r !! i) →
  is_Some (spectrometers r !! j) →
  set_active_spectrometer j (set_active_spectrometer i r).2 = set_active_spectrometer j r.
Proof.
  intros Hi Hj.
  assert (is_Some (spectrometers (set_active_spectrometer i r).2 !! j)) as Hj'.
  { rewrite lookup_set_active_spectrometer by done. destruct Hj as [c ->]. by eexists. }
  rewrite (set_active_spectrometer_snd _ j Hj'), (set_active_spectrometer_snd r j Hj).
  f_equal.
  pose proof (set_active_spectrometer_frame r i) as (Hd1 & Hv1 & Hs1 & _).
  pose proof (set_active_spectrometer_frame r j) as (Hd2 & Hv2 & Hs2 & _).
  pose proof (set_active_spectrometer_frame (set_active_spectrometer i r).2 j)
    as (Hd3 & Hv3 & Hs3 & _).
  cbn zeta in *. apply registry_eq; [congruence| |congruence|congruence].
  apply map_eq. intros k.
  rewrite !lookup_set_active_spectrometer by done.
  by destruct (spectrometers r !! k).
Qed.

Lemma set_active_spectrometer_last_wins_witness :
  set_active_spectrometer "b" (set_active_spectrometer "a" registry_ab).2
  = set_active_spectrometer "b" registry_ab.
Proof.
  apply (set_active_spectrometer_last_wins registry_ab "a" "b"); by eexists.
Defined.

(** X7. An activation changes no attribute but [is_active]: every
    spectrometer keeps its id, device, name, monochromatic flag, control
    wavelength and creation time. *)
Theorem set_active_spectrometer_changes_only_flag (r : DeviceRegistry) (i k : string)
    (c : SpectrometerConfig.t) :
  is_Some (spectrometers r !! i) →
  spectrometers r !! k = Some c →
  ∃ c', spectrometers (set_active_spectrometer i r).2 !! k = Some c'
        ∧ SpectrometerConfig.id c' = SpectrometerConfig.id c
        ∧ SpectrometerConfig.device_id c' = SpectrometerConfig.device_id c
        ∧ SpectrometerConfig.name c' = SpectrometerConfig.name c
        ∧ SpectrometerConfig.is_monochromatic c' = SpectrometerConfig.is_monochromatic c
        ∧ SpectrometerConfig.control_wavelength c' = SpectrometerConfig.control_wavelength c
        ∧ SpectrometerConfig.created_at c' = SpectrometerConfig.created_at c.
Proof.
  intros Hi Hk. rewrite lookup_set_active_spectrometer, Hk by done. cbn.
  eexists. split; [done|]. done.
Qed.

Lemma set_active_spectrometer_changes_only_flag_witness :
  ∃ c', spectrometers (set_active_spectrometer "a" registry_ab).2 !! "b" = Some c'
        ∧ SpectrometerConfig.is_monochromatic c' = true.
Proof.
  destruct (set_active_spectrometer_changes_only_flag registry_ab "a" "b" spectrometer_b)
    as (c' & H1 & _ & _ & _ & H5 & _); [by eexists|reflexivity|].
  by exists c'.
Defined.

(** ** The active resource *)

Lemma elem_of_values_of {A} (m : gmap string A) (values : list A) (x : A) :
  values_of m values → x ∈ values ↔ ∃ k, m !! k = Some x.
Proof.
  unfold values_of. intros ->. rewrite list_elem_of_fmap. split.
  - intros ([k y] & -> & Hin). exists k. by apply elem_of_map_to_list.
  - intros (k & Hk). exists (k, x). split; [done|]. by apply elem_of_map_to_list.
Qed.

Lemma find_only {A} (P : A → bool) (l : list A) (x : A) :
  x ∈ l → P x = true → (∀ y, y ∈ l → P y = true → y = x) → find P l = Some x.
Proof.
  intros Hin Hx Huniq. destruct (find P l) as [y|] eqn:Hf.
  - apply find_some in Hf as [Hy HPy]. f_equal. apply Huniq; [|done].
    by apply list_elem_of_In.
  - eapply find_none in Hf; [|by apply list_elem_of_In]. congruence.
Qed.

(** X8. [get_active_spectrometer] returns an active spectrometer of the
    registry when it returns one, and returns [None] only when no
    spectrometer is active, in whatever order the dict is walked. *)
Theorem get_active_spectrometer_sound (r : DeviceRegistry)
    (values : list SpectrometerConfig.t) :
  values_of (spectrometers r) values →
  match get_active_spectrometer values with
  | Some c => SpectrometerConfig.is_active c = true ∧ ∃ k, spectrometers r !! k = Some c
  | None => ∀ k c, spectrometers r !! k = Some c → SpectrometerConfig.is_active c = false
  end.
Proof.
  intros Hv. unfold get_active_spectrometer.
  destruct (find _ values) as [c|] eqn:Hf.
  - apply find_some in Hf as [Hin Hc]. split; [done|].
    apply (elem_of_values_of _ _ _ Hv). by apply list_elem_of_In.
  - intros k c Hk. eapply find_none in Hf; [done|].
    apply list_elem_of_In, (elem_of_values_of _ _ _ Hv). eauto.
Qed.

Lemma get_active_spectrometer_sound_witness :
  (∀ k c, spectrometers registry_ab !! k = Some c → SpectrometerConfig.is_active c = false)
  ∧ get_active_spectrometer [spectrometer_b; spectrometer_a] = None.
Proof.
  split; [|reflexivity].
  apply (get_active_spectrometer_sound registry_ab [spectrometer_b; spectrometer_a]).
  unfold values_of. vm_compute. apply perm_swap.
Defined.

Lemma get_active_spectrometer_of_set_active (r : DeviceRegistry) (i : string)
    (c0 : SpectrometerConfig.t) (values : list SpectrometerConfig.t) :
  spectrometers r !! i = Some c0 →
  values_of (spectrometers (set_active_spectrometer i r).2) values →
  get_active_spectrometer values = Some (SpectrometerConfig.set_is_active true c0)
  ∧ spectrometers (set_active_spectrometer i r).2 !! i
    = Some (SpectrometerConfig.set_is_active true c0).
Proof.
  intros Hc0 Hv.
  assert (spectrometers (set_active_spectrometer i r).2 !! i
          = Some (SpectrometerConfig.set_is_active true c0)) as Hl.
  { rewrite lookup_set_active_spectrometer, Hc0 by eauto. cbn.
    by rewrite bool_decide_eq_true_2. }
  split; [|done]. apply find_only; [|done|].
  - apply (elem_of_values_of _ _ _ Hv). eauto.
  - intros y Hy Hact. apply (elem_of_values_of _ _ _ Hv) in Hy as [k Hk].
    rewrite lookup_set_active_spectrometer in Hk by eauto.
    destruct (spectrometers r !! k) as [c|] eqn:Hc; [|done]. cbn in Hk.
    injection Hk as <-. cbn in Hact. apply bool_decide_eq_true in Hact as ->.
    rewrite Hc0 in Hc. injection Hc as ->. by rewrite bool_decide_eq_true_2.
Qed.

(** X9. After [set_active_spectrometer i], [get_active_spectrometer] returns
    the spectrometer stored under [i], in whatever order the dict is walked. *)
Theorem get_active_after_set_active (r : DeviceRegistry) (i : string)
    (values : list SpectrometerConfig.t) :
  is_Some (spectrometers r !! i) →
  values_of (spectrometers (set_active_spectrometer i r).2) values →
  ∃ c, get_active_spectrometer values = Some c
       ∧ spectrometers (set_active_spectrometer i r).2 !! i = Some c
       ∧ SpectrometerConfig.is_active c = true.
Proof.
  intros [c0 Hc0] Hv.
  destruct (get_active_spectrometer_of_set_active r i c0 values Hc0 Hv) as [H1 H2].
  eexists. split; [exact H1|]. split; [exact H2|]. done.
Qed.

Lemma get_active_after_set_active_witness :
  ∃ c, get_active_spectrometer
         [SpectrometerConfig.set_is_active false spectrometer_a;
          SpectrometerConfig.set_is_active true spectrometer_b] = Some c
       ∧ spectrometers (set_active_spectrometer "b" registry_ab).2 !! "b" = Some c
       ∧ SpectrometerConfig.is_active c = true.
Proof.
  apply (get_active_after_set_active registry_ab "b"); [by eexists|].
  unfold values_of. vm_compute. reflexivity.
Defined.

(** X10. Removing the active spectrometer leaves no active spectrometer:
    nothing is promoted in its place. *)
Theorem remove_active_spectrometer_leaves_none (r : DeviceRegistry) (i : string)
    (values : list SpectrometerConfig.t) :
  is_Some (spectrometers r !! i) →
  values_of (spectrometers (remove_spectrometer i (set_active_spectrometer i r).2).2) values →
  get_active_spectrometer values = None.
Proof.
  intros Hi Hv.
  pose proof (get_active_spectrometer_sound _ _ Hv) as Hs.
  destruct (get_active_spectrometer values) as [c|]; [|done].
  destruct Hs as (Hact & k & Hk). exfalso.
  assert (spectrometers (remove_spectrometer i (set_active_spectrometer i r).2).2
          = delete i (spectrometers (set_active_spectrometer i r).2)) as Heq.
  { unfold remove_spectrometer at 1.
    destruct (spectrometers (set_active_spectrometer i r).2 !! i) eqn:E; cbn.
    - by destruct (spectral_data _ !! i).
    - symmetry. by apply delete_id. }
  rewrite Heq in Hk. apply lookup_delete_Some in Hk as [Hne Hk].
  rewrite lookup_set_active_spectrometer in Hk by done.
  destruct (spectrometers r !! k); [|done]. cbn in Hk. injection Hk as <-.
  cbn in Hact. by apply bool_decide_eq_true in Hact.
Qed.

Lemma remove_active_spectrometer_leaves_none_witness :
  get_active_spectrometer [SpectrometerConfig.set_is_active false spectrometer_a] = None.
Proof.
  apply (remove_active_spectrometer_leaves_none registry_ab "b"); [by eexists|].
  unfold values_of. vm_compute. reflexivity.
Defined.

(** ** Dangling references and orphan samples *)

(** X11. [remove_device] does not cascade.  A spectrometer of the removed
    device stays registered, and the handlers that need its device answer 404:
    the details handler, and the control-wavelength handler, which sends
    nothing to the peripheral. *)
Theorem remove_device_leaves_dangling_spectrometer (w : World) (wavelength : float)
    (r : DeviceRegistry) (i : string) (c : SpectrometerConfig.t) :
  spectrometers r !! i = Some c →
  is_Some (devices r !! SpectrometerConfig.device_id c) →
  SpectrometerConfig.is_monochromatic c = true →
  ∃ r', remove_device (SpectrometerConfig.device_id c) r = (true, r')
        ∧ get_spectrometer r' i = Some c
        ∧ spectral_data r' = spectral_data r
        ∧ RouterSpectrometers.get_spectrometer i r' = HTTPException 404
        ∧ set_control_wavelength w i wavelength r' = (HTTPException 404, r', []).
Proof.
  intros Hc [d Hd] Hm. unfold remove_device. rewrite Hd. eexists. split; [done|].
  unfold RouterSpectrometers.get_spectrometer, set_control_wavelength, get_spectrometer,
    get_device. cbn. rewrite Hc, Hm, lookup_delete_eq. done.
Qed.

Lemma remove_device_leaves_dangling_spectrometer_witness :
  ∃ r', remove_device "dev-1" registry_ab = (true, r')
        ∧ get_spectrometer r' "b" = Some spectrometer_b
        ∧ RouterSpectrometers.get_spectrometer "b" r' = HTTPException 404.
Proof.
  destruct (remove_device_leaves_dangling_spectrometer (peripheral info_full)
              (S754_finite false 4837851162214400 (-43)) registry_ab "b" spectrometer_b)
    as (r' & H1 & H2 & _ & H4 & _); [reflexivity|by eexists|reflexivity|].
  by exists r'.
Defined.

(** X12. The store keeps the latest sample of each id: after two stores under
    one id a read returns the second, the samples of other ids are untouched,
    and no other collection is written. *)
Theorem store_spectral_data_latest_value (r : DeviceRegistry) (i : string)
    (readings1 wavelengths1 readings2 wavelengths2 : list float)
    (timestamp1 timestamp2 : datetime) :
  let r2 := store_spectral_data i readings2 wavelengths2 timestamp2
              (store_spectral_data i readings1 wavelengths1 timestamp1 r) in
  get_spectral_data r2 i = Some (SpectralData.mk timestamp2 readings2 wavelengths2)
  ∧ (∀ k, k ≠ i → get_spectral_data r2 k = get_spectral_data r k)
  ∧ size (spectral_data r2)
    = size (spectral_data (store_spectral_data i readings1 wavelengths1 timestamp1 r))
  ∧ devices r2 = devices r ∧ spectrometers r2 = spectrometers r
  ∧ vacuum_chambers r2 = vacuum_chambers r.
Proof.
  cbn zeta. rewrite store_overwrites. split; [apply store_then_get|].
  unfold get_spectral_data, store_spectral_data. cbn.
  split; [intros k Hk; by rewrite lookup_insert_ne|]. split; [|done].
  destruct (spectral_data r !! i) eqn:Hi.
  - rewrite !map_size_insert_Some; eauto.
  - by rewrite !map_size_insert_None.
Qed.

(** X13. [store_spectral_data] does not ask whether the id is registered. A
    sample stored under an unknown id is kept by the registry, answered with
    404 by the read handler, and not deleted by [remove_spectrometer], which
    returns [False]. *)
Theorem store_spectral_data_orphan (r : DeviceRegistry) (i : string)
    (readings wavelengths : list float) (timestamp : datetime) :
  spectrometers r !! i = None →
  let r' := store_spectral_data i readings wavelengths timestamp r in
  get_spectral_data r' i = Some (SpectralData.mk timestamp readings wavelengths)
  ∧ get_spectral_data_handler i r' = HTTPException 404
  ∧ remove_spectrometer i r' = (false, r').
Proof.
  intros Hi. cbn zeta. split; [apply store_then_get|].
  unfold get_spectral_data_handler, remove_spectrometer, get_spectrometer. cbn.
  by rewrite Hi.
Qed.

Lemma store_spectral_data_orphan_witness :
  get_spectral_data (store_spectral_data "zz" [S754_zero false] [S754_zero false] 3 registry_ab) "zz"
    = Some (SpectralData.mk 3 [S754_zero false] [S754_zero false])
  ∧ get_spectral_data_handler "zz"
      (store_spectral_data "zz" [S754_zero false] [S754_zero false] 3 registry_ab)
    = HTTPException 404.
Proof.
  destruct (store_spectral_data_orphan registry_ab "zz" [S754_zero false] [S754_zero false] 3)
    as (H1 & H2 & _); [reflexivity|].
  by split.
Defined.

(** X14. Removing a registered vacuum chamber returns [True] and deletes that
    entry only; an unknown id returns [False] and changes nothing; a second
    removal of the same id returns [False]. *)
Theorem remove_vacuum_chamber_deletes_one (r : DeviceRegistry) (i : string) :
  (is_Some (vacuum_chambers r !! i) →
     ∃ r', remove_vacuum_chamber i r = (true, r')
       ∧ get_vacuum_chamber r' i = None
       ∧ (∀ k, k ≠ i → get_vacuum_chamber r' k = get_vacuum_chamber r k)
       ∧ devices r' = devices r ∧ spectrometers r' = spectrometers r
       ∧ spectral_data r' = spectral_data r)
  ∧ (vacuum_chambers r !! i = None → remove_vacuum_chamber i r = (false, r))
  ∧ remove_vacuum_chamber i (remove_vacuum_chamber i r).2
    = (false, (remove_vacuum_chamber i r).2).
Proof.
  unfold remove_vacuum_chamber at 1 2, get_vacuum_chamber. split; [|split].
  - intros [c ->]. eexists. split; [done|]. cbn. rewrite lookup_delete_eq.
    repeat split; try done. intros k Hk. by rewrite lookup_delete_ne.
  - by intros ->.
  - unfold remove_vacuum_chamber at 2 3. destruct (vacuum_chambers r !! i) eqn:Hi; cbn.
    + unfold remove_vacuum_chamber. cbn. by rewrite lookup_delete_eq.
    + unfold remove_vacuum_chamber. by rewrite Hi.
Qed.

Lemma remove_vacuum_chamber_deletes_one_witness :
  (∃ r', remove_vacuum_chamber "c" registry_ab = (true, r') ∧ get_vacuum_chamber r' "c" = None)
  ∧ remove_vacuum_chamber "zz" registry_ab = (false, registry_ab).
Proof.
  destruct (remove_vacuum_chamber_deletes_one registry_ab "c") as (Hc & _).
  destruct (remove_vacuum_chamber_deletes_one registry_ab "zz") as (_ & Hz & _).
  split.
  - destruct Hc as (r' & H1 & H2 & _); [by eexists|]. by exists r'.
  - by apply Hz.
Defined.

(** * Further properties of the discovery *)

(** X15. When the GET raises (timeout, refused connection, any exception) or
    is answered with another status than 200, [discover_device] returns no
    device, the registry is unchanged, and [connect_device] answers 404. *)
Theorem connect_device_soft_failure (w : World) (port : Z) (address monitoring_api_url : string)
    (r : DeviceRegistry) :
  (∃ e, http_get w (device_info_url address port) = inl e)
  ∨ (∃ response, http_get w (device_info_url address port) = inr response
                 ∧ status_code response ≠ 200) →
  discover_device w port address monitoring_api_url r = ((None, None, None), r)
  ∧ RouterDevices.connect_device w port address monitoring_api_url r = (HTTPException 404, r).
Proof.
  intros H. pose proof (discover_device_soft_failure w port address monitoring_api_url r H) as Hd.
  split; [done|]. unfold RouterDevices.connect_device. by rewrite Hd.
Qed.

Lemma connect_device_soft_failure_witness :
  RouterDevices.connect_device nothing_listening 9999 "127.0.0.1" "http://monitor:8200"
    registry_ab = (HTTPException 404, registry_ab)
  ∧ RouterDevices.connect_device unavailable 8100 "localhost" "http://monitor:8200"
      registry_ab = (HTTPException 404, registry_ab).
Proof.
  split.
  - apply (connect_device_soft_failure nothing_listening 9999 "127.0.0.1"
             "http://monitor:8200" registry_ab).
    left. by eexists.
  - apply (connect_device_soft_failure unavailable 8100 "localhost"
             "http://monitor:8200" registry_ab).
    right. eexists. split; [reflexivity|]. done.
Defined.

(** X16. A 200 answer whose body is an object with a valid "type", a string
    "name" or none, an object "capabilities" or none, and, for each truthy
    capability flag, a value that validates, is always discovered: the device
    is returned and stored under the new id, with one id per truthy flag. *)
Theorem discover_device_succeeds (w : World) (port : Z) (address monitoring_api_url : string)
    (r : DeviceRegistry) (m caps : gmap string json) (tv : json) (ty : DeviceType)
    (name : string) :
  http_get w (device_info_url address port) = inr (mkResponse 200 (Some (JDict m))) →
  m !! "type" = Some tv →
  DeviceType_of tv = inr ty →
  dict_get m "name" (JStr "Unknown Device") = JStr name →
  dict_get m "capabilities" (JDict ∅) = JDict caps →
  (truthy (dict_get caps "has_spectrometer" JNull) = true →
   ∃ b, validate_bool (dict_get caps "is_monochromatic" (JBool false)) = inr b) →
  (truthy (dict_get caps "has_vacuum_chamber" JNull) = true →
   ∃ p, ProcessType_of (dict_get caps "process_type" (JStr "two-component")) = inr p) →
  ∃ r',
    discover_device w port address monitoring_api_url r
    = ((Some (DeviceInfo.mk (uuid4_device w) ty port address name CONNECTED caps),
        (if truthy (dict_get caps "has_spectrometer" JNull)
         then Some (uuid4_spectrometer w) else None),
        (if truthy (dict_get caps "has_vacuum_chamber" JNull)
         then Some (uuid4_vacuum_chamber w) else None)), r')
    ∧ get_device r' (uuid4_device w)
      = Some (DeviceInfo.mk (uuid4_device w) ty port address name CONNECTED caps).
Proof.
  intros Hget Hm Hty Hname Hcaps Hsp Hvc.
  rewrite discover_device_cases, Hget. cbn [status_code].
  change (200 =? 200) with true. cbv iota.
  unfold provision, bind, lift, modify, ret, get_device. cbn.
  rewrite Hm, Hty, Hname, Hcaps. cbn.
  unfold SpectrometerConfig_new.
  destruct (truthy (dict_get caps "has_spectrometer" JNull)) eqn:Hhs;
    destruct (truthy (dict_get caps "has_vacuum_chamber" JNull)) eqn:Hhv.
  - destruct Hsp as [b ->]; [done|]. destruct Hvc as [p ->]; [done|]. cbn.
    eexists. split; [done|]. cbn. apply lookup_insert_eq.
  - destruct Hsp as [b ->]; [done|]. cbn.
    eexists. split; [done|]. cbn. apply lookup_insert_eq.
  - destruct Hvc as [p ->]; [done|]. cbn.
    eexists. split; [done|]. cbn. apply lookup_insert_eq.
  - cbn. eexists. split; [done|]. cbn. apply lookup_insert_eq.
Qed.

Lemma discover_device_succeeds_witness :
  ∃ r',
    discover_device (peripheral info_full) 8100 "localhost" "http://monitor:8200" registry_ab
    = ((Some (DeviceInfo.mk "dev-uuid" SPECTROMETER 8100 "localhost" "Virtual" CONNECTED
                (<["has_spectrometer" := JBool true]>
                (<["is_monochromatic" := JBool true]>
                (<["has_vacuum_chamber" := JBool true]> ∅)))),
        Some "spec-uuid", Some "chamber-uuid"), r').
Proof.
  destruct (discover_device_succeeds (peripheral info_full) 8100 "localhost"
              "http://monitor:8200" registry_ab
              (<["type" := JStr "spectrometer"]>
              (<["name" := JStr "Virtual"]>
              (<["capabilities" :=
                   JDict (<["has_spectrometer" := JBool true]>
                         (<["is_monochromatic" := JBool true]>
                         (<["has_vacuum_chamber" := JBool true]> ∅)))]> ∅)))
              (<["has_spectrometer" := JBool true]>
              (<["is_monochromatic" := JBool true]>
              (<["has_vacuum_chamber" := JBool true]> ∅)))
              (JStr "spectrometer") SPECTROMETER "Virtual")
    as (r' & H & _); try reflexivity.
  - intros _. by exists true.
  - intros _. by exists TWO_COMPONENT.
  - exists r'. exact H.
Defined.

Lemma provision_frame (w : World) (port : Z) (address : string) (response : Response)
    (r : DeviceRegistry) :
  let out := provision w port address response r in
  spectral_data out.2 = spectral_data r
  ∧ (∀ k, k ≠ uuid4_device w → devices out.2 !! k = devices r !! k)
  ∧ (∀ k, k ≠ uuid4_spectrometer w → spectrometers out.2 !! k = spectrometers r !! k)
  ∧ (∀ k, k ≠ uuid4_vacuum_chamber w → vacuum_chambers out.2 !! k = vacuum_chambers r !! k)
  ∧ ((∃ e, out.1 = inl e) → vacuum_chambers out.2 = vacuum_chambers r).
Proof.
  unfold provision, bind, lift, modify, ret.
  destruct (Response_json response) as [e|data]; [done|].
  destruct (getitem data "type") as [e|tv]; [done|].
  destruct (DeviceType_of tv) as [e|ty]; [done|].
  destruct (get data "name" _) as [e|nm]; [done|].
  destruct (get data "capabilities" _) as [e|cp]; [done|].
  destruct (DeviceInfo_new _ _ _ _ _ _ _) as [e|di] eqn:Hdi; [done|].
  assert (DeviceInfo.id di = uuid4_device w) as Hid.
  { unfold DeviceInfo_new in Hdi. destruct (validate_str nm), (validate_dict cp); try done.
    by injection Hdi as <-. }
  cbn. unfold SpectrometerConfig_new.
  destruct (truthy (dict_get _ "has_spectrometer" _)); [destruct (validate_bool _)|];
    cbn; rewrite ?Hid;
    try (repeat split; try done; intros k Hk; by rewrite lookup_insert_ne);
    (destruct (truthy (dict_get _ "has_vacuum_chamber" _)); [destruct (ProcessType_of _)|]);
    cbn; rewrite ?Hid;
    repeat split; try done; try (intros k Hk; by rewrite lookup_insert_ne);
    by intros [? [=]].
Qed.

(** X17. Whatever the peripheral answers, [discover_device] leaves the stored
    samples alone and writes at most under the three ids drawn for this call:
    every other device, spectrometer and vacuum chamber is as before.  A call
    that returns no device has added no vacuum chamber. *)
Theorem discover_device_frame (w : World) (port : Z) (address monitoring_api_url : string)
    (r : DeviceRegistry) :
  let out := discover_device w port address monitoring_api_url r in
  spectral_data out.2 = spectral_data r
  ∧ (∀ k, k ≠ uuid4_device w → devices out.2 !! k = devices r !! k)
  ∧ (∀ k, k ≠ uuid4_spectrometer w → spectrometers out.2 !! k = spectrometers r !! k)
  ∧ (∀ k, k ≠ uuid4_vacuum_chamber w → vacuum_chambers out.2 !! k = vacuum_chambers r !! k)
  ∧ (out.1.1.1 = None → vacuum_chambers out.2 = vacuum_chambers r).
Proof.
  cbn zeta. rewrite discover_device_cases.
  destruct (http_get w _) as [e|response]; [done|].
  destruct (Z.eqb _ _); [|done].
  pose proof (provision_frame w port address response r) as (H1 & H2 & H3 & H4 & H5).
  cbn zeta in *.
  destruct (provision w port address response r) as [[e|[[d s] v]] r']; cbn in *.
  - repeat split; try done. intros _. apply H5. eauto.
  - repeat split; done.
Qed.

Lemma store_spectral_data_latest_value_witness :
  get_spectral_data
    (store_spectral_data "b" [S754_zero false] [] 9
       (store_spectral_data "b" [] [S754_zero false] 8 registry_ab)) "a"
  = get_spectral_data registry_ab "a".
Proof.
  destruct (store_spectral_data_latest_value registry_ab "b" [] [S754_zero false]
              [S754_zero false] [] 8 9) as (_ & H & _).
  apply H. done.
Defined.

Lemma discover_device_frame_witness :
  spectrometers
    (discover_device (peripheral info_bad_process_type) 8100 "localhost" "http://monitor:8200"
       registry_ab).2 !! "a" = spectrometers registry_ab !! "a"
  ∧ vacuum_chambers
      (discover_device (peripheral info_bad_process_type) 8100 "localhost"
         "http://monitor:8200" registry_ab).2 = vacuum_chambers registry_ab.
Proof.
  destruct (discover_device_frame (peripheral info_bad_process_type) 8100 "localhost"
              "http://monitor:8200" registry_ab) as (_ & _ & H3 & _ & H5).
  split; [by apply H3|]. apply H5. vm_compute. reflexivity.
Defined.

(** * Properties of the handlers *)



(** X19. [create_spectrometer] answers 404 for an unknown device and 400 for a
    device of type vacuum-chamber, whatever its capabilities, and leaves the
    registry unchanged in both cases.  For a device of type spectrometer whose
    [is_monochromatic] capability validates, it stores and returns a new
    inactive spectrometer without control wavelength, with that flag. *)
Theorem create_spectrometer_checks_the_device (w : World)
    (request : CreateSpectrometerRequest.t) (r : DeviceRegistry) :
  (devices r !! CreateSpectrometerRequest.device_id request = None →
   RouterSpectrometers.create_spectrometer w request r = (HTTPException 404, r))
  ∧ (∀ d, devices r !! CreateSpectrometerRequest.device_id request = Some d →
          DeviceInfo.type d = VACUUM_CHAMBER →
          RouterSpectrometers.create_spectrometer w request r = (HTTPException 400, r))
  ∧ (∀ d b, devices r !! CreateSpectrometerRequest.device_id request = Some d →
            DeviceInfo.type d = SPECTROMETER →
            validate_bool (dict_get (DeviceInfo.capabilities d) "is_monochromatic" (JBool false))
              = inr b →
            let config :=
              SpectrometerConfig.mk (uuid4_spectrometer w)
                (CreateSpectrometerRequest.device_id request)
                (CreateSpectrometerRequest.name request) b None false (now_spectrometer w) in
            RouterSpectrometers.create_spectrometer w request r
              = (Returned config, add_spectrometer config r)
            ∧ get_spectrometer (add_spectrometer config r) (uuid4_spectrometer w)
              = Some config).
Proof.
  unfold RouterSpectrometers.create_spectrometer, get_device. split; [|split].
  - by intros ->.
  - intros d -> Ht. by rewrite Ht.
  - intros d b -> Ht Hb. rewrite Ht. unfold SpectrometerConfig_new. rewrite Hb.
    split; [done|]. unfold get_spectrometer, add_spectrometer. cbn. apply lookup_insert_eq.
Qed.

Lemma create_spectrometer_checks_the_device_witness :
  RouterSpectrometers.create_spectrometer (peripheral info_full)
    (CreateSpectrometerRequest.mk "nowhere" "Main") registry_ab = (HTTPException 404, registry_ab)
  ∧ RouterSpectrometers.create_spectrometer (peripheral info_full)
      (CreateSpectrometerRequest.mk "dev-9" "Main") registry_coater
    = (HTTPException 400, registry_coater)
  ∧ (RouterSpectrometers.create_spectrometer (peripheral info_full)
       (CreateSpectrometerRequest.mk "dev-1" "Main") registry_ab).1
    = Returned (SpectrometerConfig.mk "spec-uuid" "dev-1" "Main" false None false 11).
Proof.
  destruct (create_spectrometer_checks_the_device (peripheral info_full)
              (CreateSpectrometerRequest.mk "nowhere" "Main") registry_ab) as (H1 & _).
  destruct (create_spectrometer_checks_the_device (peripheral info_full)
              (CreateSpectrometerRequest.mk "dev-9" "Main") registry_coater) as (_ & H2 & _).
  destruct (create_spectrometer_checks_the_device (peripheral info_full)
              (CreateSpectrometerRequest.mk "dev-1" "Main") registry_ab) as (_ & _ & H3).
  split; [by apply H1|]. split; [by apply (H2 device_coater)|].
  destruct (H3 device_1 false) as [-> _]; reflexivity.
Defined.











(** ** The HTTP surface and the selection *)

(** Every request leaves the registry as it was or does to it what one
    registry operation that leaves the selection to [set_active_*] does. *)
Lemma serve_is_one_operation (json_dumps : json → string) (isoformat : datetime → string)
    (r : DeviceRegistry) (m : WebSocketManager) (call : Outside * HttpRequest) :
  (serve json_dumps isoformat (r, m) call).1 = r
  ∨ ∃ op, leaves_selection op = true
          ∧ (serve json_dumps isoformat (r, m) call).1 = perform r op.
Proof.
  destruct call as [out req]. destruct req; cbn [serve fst].
  - right. exists (DiscoverDevice (out_world out) port address monitoring_api_url).
    split; [done|]. cbn. unfold RouterDevices.connect_device.
    by destruct (discover_device _ _ _ _ _) as [[[[d|] s] v] r'].
  - right. exists (RemoveDevice device_id). split; [done|]. cbn.
    unfold RouterDevices.disconnect_device. by destruct (remove_device _ _) as [[] r'].
  - unfold RouterSpectrometers.create_spectrometer.
    destruct (get_device r _) as [d|]; [|by left].
    destruct (DeviceInfo.type d); [|by left].
    unfold SpectrometerConfig_new. destruct (validate_bool _) as [e|b]; [by left|].
    right. eexists (AddSpectrometer _). split; [|reflexivity]. done.
  - unfold set_control_wavelength.
    destruct (get_spectrometer r _) as [c|] eqn:Hc; [|by left].
    destruct (negb _); [by left|].
    destruct (get_device r _) as [d|]; [|by left].
    destruct (http_post _ _ _) as [e|response]; [left; by destruct e|].
    destruct (negb _); [by left|].
    right. exists (UpdateSpectrometer spectrometer_id
                     [SpectrometerConfig.kw_control_wavelength (Some wavelength)]).
    split; [reflexivity|]. cbn.
    by destruct (update_spectrometer _ _ _) as [[e|[u|]] r'].
  - left. unfold post_spectral_data. by destruct (get_spectrometer r _).
  - right. exists (SetActiveSpectrometer spectrometer_id). split; [done|]. cbn.
    unfold RouterSpectrometers.activate_spectrometer.
    by destruct (set_active_spectrometer _ _) as [[] r'].
  - right. exists (RemoveSpectrometer spectrometer_id). split; [done|]. cbn.
    unfold RouterSpectrometers.delete_spectrometer.
    by destruct (remove_spectrometer _ _) as [[] r'].
  - unfold RouterVacuumChambers.create_vacuum_chamber.
    destruct (get_device r _) as [d|]; [|by left].
    destruct (DeviceInfo.type d); [by left|].
    right. eexists (AddVacuumChamber _). split; [|reflexivity]. done.
  - unfold RouterVacuumChambers.start_deposition.
    destruct (get_vacuum_chamber r _) as [c|]; [|by left].
    destruct (get_device r _) as [d|]; [|by left].
    destruct (upstream_ok _ _); [|by left].
    right. exists (UpdateVacuumChamber chamber_id
                     [VacuumChamberConfig.kw_status RUNNING]). split; [reflexivity|]. cbn.
    by destruct (update_vacuum_chamber _ _ _) as [[e|[u|]] r'].
  - unfold RouterVacuumChambers.stop_deposition.
    destruct (get_vacuum_chamber r _) as [c|]; [|by left].
    destruct (get_device r _) as [d|]; [|by left].
    destruct (upstream_ok _ _); [|by left].
    right. exists (UpdateVacuumChamber chamber_id
                     [VacuumChamberConfig.kw_status STOPPED]). split; [reflexivity|]. cbn.
    by destruct (update_vacuum_chamber _ _ _) as [[e|[u|]] r'].
  - unfold RouterVacuumChambers.set_material.
    destruct (get_vacuum_chamber r _) as [c|]; [|by left].
    destruct (get_device r _) as [d|]; [|by left].
    destruct (upstream_ok _ _); [|by left].
    right. exists (UpdateVacuumChamber chamber_id
                     [VacuumChamberConfig.kw_current_material (Some material);
                      VacuumChamberConfig.kw_current_fraction (Some fraction)]). split; [reflexivity|]. cbn.
    by destruct (update_vacuum_chamber _ _ _) as [[e|[u|]] r'].
  - unfold RouterVacuumChambers.set_fraction.
    destruct (get_vacuum_chamber r _) as [c|]; [|by left].
    right. exists (UpdateVacuumChamber chamber_id
                     [VacuumChamberConfig.kw_current_fraction (Some fraction)]). split; [reflexivity|]. cbn.
    by destruct (update_vacuum_chamber _ _ _) as [[e|[u|]] r'].
  - right. exists (SetActiveVacuumChamber chamber_id). split; [done|]. cbn.
    unfold RouterVacuumChambers.activate_vacuum_chamber.
    by destruct (set_active_vacuum_chamber _ _) as [[] r'].
  - right. exists (RemoveVacuumChamber chamber_id). split; [done|]. cbn.
    unfold RouterVacuumChambers.delete_vacuum_chamber.
    by destruct (remove_vacuum_chamber _ _) as [[] r'].
Qed.

(** X23. Through the HTTP handlers the selection is always well formed: after
    any sequence of requests to the mutating endpoints, whatever the
    peripherals and the subscribers do, at most one spectrometer and at most
    one vacuum chamber is active. *)
Theorem http_surface_keeps_single_active (json_dumps : json → string)
    (isoformat : datetime → string) (calls : list (Outside * HttpRequest)) :
  single_active (serve_all json_dumps isoformat calls).1.
Proof.
  unfold serve_all.
  assert (single_active (DeviceRegistry_init, WebSocketManager_init).1) as Hinit.
  { split; apply at_most_one_active_empty. }
  revert Hinit. generalize (DeviceRegistry_init, WebSocketManager_init) as st.
  induction calls as [|call calls IH]; intros st Hst; [done|].
  cbn [foldl]. apply IH. destruct st as [r m].
  destruct (serve_is_one_operation json_dumps isoformat r m call) as [->|(op & Hop & ->)];
    [done|].
  by apply perform_keeps_single_active.
Qed.

Section Keyed.
Context {A : Type} (P : string → A → Prop).

Lemma keyed_insert (m : gmap string A) (k : string) (x : A) :
  (∀ i y, m !! i = Some y → P i y) → P k x →
  ∀ i y, <[k := x]> m !! i = Some y → P i y.
Proof.
  intros Hm Hx i y. rewrite lookup_insert. case_decide; [|by eauto].
  intros [= <-]. by subst.
Qed.

Lemma keyed_delete (m : gmap string A) (k : string) :
  (∀ i y, m !! i = Some y → P i y) →
  ∀ i y, delete k m !! i = Some y → P i y.
Proof. intros Hm i y. rewrite lookup_delete_Some. intros [_ ?]. eauto. Qed.
End Keyed.

Lemma device_keyed_insert (m : gmap string DeviceInfo.t) (k : string) (x : DeviceInfo.t) :
  (∀ i y, m !! i = Some y → DeviceInfo.id y = i) → DeviceInfo.id x = k →
  ∀ i y, <[k := x]> m !! i = Some y → DeviceInfo.id y = i.
Proof. apply (keyed_insert (λ i y, DeviceInfo.id y = i)). Qed.

Lemma spectrometer_ok_insert (m : gmap string SpectrometerConfig.t) (k : string)
    (x : SpectrometerConfig.t) :
  (∀ i y, m !! i = Some y → spectrometer_ok i y) → spectrometer_ok k x →
  ∀ i y, <[k := x]> m !! i = Some y → spectrometer_ok i y.
Proof. apply (keyed_insert spectrometer_ok). Qed.

Lemma chamber_keyed_insert (m : gmap string VacuumChamberConfig.t) (k : string)
    (x : VacuumChamberConfig.t) :
  (∀ i y, m !! i = Some y → VacuumChamberConfig.id y = i) → VacuumChamberConfig.id x = k →
  ∀ i y, <[k := x]> m !! i = Some y → VacuumChamberConfig.id y = i.
Proof. apply (keyed_insert (λ i y, VacuumChamberConfig.id y = i)). Qed.

Lemma consistent_alt (r : DeviceRegistry) :
  keyed_by_id r ∧ wavelength_only_if_monochromatic r ↔
  (∀ k d, devices r !! k = Some d → DeviceInfo.id d = k)
  ∧ (∀ k c, spectrometers r !! k = Some c → spectrometer_ok k c)
  ∧ (∀ k c, vacuum_chambers r !! k = Some c → VacuumChamberConfig.id c = k).
Proof.
  unfold keyed_by_id, wavelength_only_if_monochromatic, spectrometer_ok. split.
  - intros [(Hd & Hs & Hv) Hw]. repeat split; eauto.
  - intros (Hd & Hs & Hv). repeat split; eauto.
    + intros k c Hk. by destruct (Hs k c Hk).
    + intros k c Hk. by destruct (Hs k c Hk).
Qed.

Ltac split_consistent := split; [|split]; try done.

Lemma provision_keeps_consistent (w : World) (port : Z) (address : string)
    (response : Response) (r : DeviceRegistry) :
  keyed_by_id r ∧ wavelength_only_if_monochromatic r →
  keyed_by_id (provision w port address response r).2
  ∧ wavelength_only_if_monochromatic (provision w port address response r).2.
Proof.
  rewrite !consistent_alt. intros (Hd & Hs & Hv).
  unfold provision, bind, lift, modify, ret.
  destruct (Response_json response) as [e|data]; [done|].
  destruct (getitem data "type") as [e|tv]; [done|].
  destruct (DeviceType_of tv) as [e|ty]; [done|].
  destruct (get data "name" _) as [e|nm]; [done|].
  destruct (get data "capabilities" _) as [e|cp]; [done|].
  destruct (DeviceInfo_new _ _ _ _ _ _ _) as [e|di] eqn:Hdi; [done|].
  assert (∀ k d, <[DeviceInfo.id di := di]> (devices r) !! k = Some d → DeviceInfo.id d = k)
    as Hd' by (by apply device_keyed_insert).
  cbn. unfold SpectrometerConfig_new.
  destruct (truthy (dict_get _ "has_spectrometer" _)); [destruct (validate_bool _)|];
    cbn; try done;
    (destruct (truthy (dict_get _ "has_vacuum_chamber" _)); [destruct (ProcessType_of _)|]);
    cbn; (split; [done|split]);
    first [ done
          | apply spectrometer_ok_insert; [done|]; split; [done|]; by intros [? [=]]
          | by apply chamber_keyed_insert ].
Qed.

Lemma serve_keeps_consistent (json_dumps : json → string) (isoformat : datetime → string)
    (r : DeviceRegistry) (m : WebSocketManager) (call : Outside * HttpRequest) :
  keyed_by_id r ∧ wavelength_only_if_monochromatic r →
  keyed_by_id (serve json_dumps isoformat (r, m) call).1
  ∧ wavelength_only_if_monochromatic (serve json_dumps isoformat (r, m) call).1.
Proof.
  intros Hr. destruct call as [out req]. destruct req; cbn [serve fst].
  - unfold RouterDevices.connect_device. rewrite discover_device_cases.
    destruct (http_get _ _) as [e|response]; [done|].
    destruct (Z.eqb _ _); [|done].
    pose proof (provision_keeps_consistent (out_world out) port address response r Hr) as Hp.
    by destruct (provision _ _ _ _ _) as [[e|[[d s] v]] r'].
  - unfold RouterDevices.disconnect_device, remove_device.
    destruct (devices r !! device_id); [|done]. cbn.
    apply consistent_alt in Hr as (Hd & Hs & Hv). apply consistent_alt; cbn.
    split_consistent. by apply keyed_delete.
  - unfold RouterSpectrometers.create_spectrometer.
    destruct (get_device r _) as [d|]; [|done].
    destruct (DeviceInfo.type d); [|done].
    unfold SpectrometerConfig_new. destruct (validate_bool _) as [e|b]; [done|]. cbn.
    apply consistent_alt in Hr as (Hd & Hs & Hv). apply consistent_alt; cbn.
    split_consistent. apply spectrometer_ok_insert; [done|]. split; [done|]. by intros [? [=]].
  - unfold set_control_wavelength.
    destruct (get_spectrometer r _) as [c|] eqn:Hc; [|done].
    destruct (SpectrometerConfig.is_monochromatic c) eqn:Hm; cbn [negb]; [|done].
    destruct (get_device r _) as [d|]; [|done].
    destruct (http_post _ _ _) as [e|response]; [by destruct e|].
    destruct (negb _); [done|].
    unfold update_spectrometer. unfold get_spectrometer in Hc. rewrite Hc. cbn.
    apply consistent_alt in Hr as (Hd & Hs & Hv). apply consistent_alt; cbn.
    split_consistent. apply spectrometer_ok_insert; [done|].
    destruct (Hs _ _ Hc) as [Hid _]. by split.
  - unfold post_spectral_data. by destruct (get_spectrometer r _).
  - unfold RouterSpectrometers.activate_spectrometer.
    destruct (spectrometers r !! spectrometer_id) as [c|] eqn:Hc;
      [|unfold set_active_spectrometer; by rewrite Hc].
    rewrite set_active_spectrometer_snd by eauto. cbn [snd].
    pose proof (set_active_spectrometer_frame r spectrometer_id) as (Hf1 & Hf2 & _ & _).
    cbn zeta in *.
    apply consistent_alt in Hr as (Hd & Hs & Hv). apply consistent_alt.
    rewrite Hf1, Hf2. split_consistent.
    intros k c' Hk. rewrite lookup_set_active_spectrometer in Hk by eauto.
    destruct (spectrometers r !! k) as [c0|] eqn:Hc0; [|done]. injection Hk as <-.
    by apply Hs in Hc0.
  - unfold RouterSpectrometers.delete_spectrometer, remove_spectrometer.
    destruct (spectrometers r !! spectrometer_id); [|done].
    apply consistent_alt in Hr as (Hd & Hs & Hv). apply consistent_alt.
    cbn. destruct (spectral_data r !! spectrometer_id); cbn;
      split_consistent; by apply keyed_delete.
  - unfold RouterVacuumChambers.create_vacuum_chamber.
    destruct (get_device r _) as [d|]; [|done].
    destruct (DeviceInfo.type d); [done|]. cbn.
    apply consistent_alt in Hr as (Hd & Hs & Hv). apply consistent_alt; cbn.
    split_consistent. by apply chamber_keyed_insert.
  - unfold RouterVacuumChambers.start_deposition.
    destruct (get_vacuum_chamber r _) as [c|] eqn:Hc; [|done].
    destruct (get_device r _) as [d|]; [|done].
    destruct (upstream_ok _ _); [|done].
    unfold update_vacuum_chamber. unfold get_vacuum_chamber in Hc. rewrite Hc. cbn.
    apply consistent_alt in Hr as (Hd & Hs & Hv). apply consistent_alt; cbn.
    split_consistent. apply chamber_keyed_insert; [done|]. cbn. by apply Hv.
  - unfold RouterVacuumChambers.stop_deposition.
    destruct (get_vacuum_chamber r _) as [c|] eqn:Hc; [|done].
    destruct (get_device r _) as [d|]; [|done].
    destruct (upstream_ok _ _); [|done].
    unfold update_vacuum_chamber. unfold get_vacuum_chamber in Hc. rewrite Hc. cbn.
    apply consistent_alt in Hr as (Hd & Hs & Hv). apply consistent_alt; cbn.
    split_consistent. apply chamber_keyed_insert; [done|]. cbn. by apply Hv.
  - unfold RouterVacuumChambers.set_material.
    destruct (get_vacuum_chamber r _) as [c|] eqn:Hc; [|done].
    destruct (get_device r _) as [d|]; [|done].
    destruct (upstream_ok _ _); [|done].
    unfold update_vacuum_chamber. unfold get_vacuum_chamber in Hc. rewrite Hc. cbn.
    apply consistent_alt in Hr as (Hd & Hs & Hv). apply consistent_alt; cbn.
    split_consistent. apply chamber_keyed_insert; [done|]. cbn. by apply Hv.
  - unfold RouterVacuumChambers.set_fraction.
    destruct (get_vacuum_chamber r _) as [c|] eqn:Hc; [|done].
    unfold update_vacuum_chamber. unfold get_vacuum_chamber in Hc. rewrite Hc. cbn.
    apply consistent_alt in Hr as (Hd & Hs & Hv). apply consistent_alt; cbn.
    split_consistent. apply chamber_keyed_insert; [done|]. cbn. by apply Hv.
  - unfold RouterVacuumChambers.activate_vacuum_chamber.
    destruct (vacuum_chambers r !! chamber_id) as [c|] eqn:Hc;
      [|unfold set_active_vacuum_chamber; by rewrite Hc].
    assert (set_active_vacuum_chamber chamber_id r
            = (true, (set_active_vacuum_chamber chamber_id r).2)) as ->.
    { unfold set_active_vacuum_chamber. by rewrite Hc. }
    cbn [snd].
    pose proof (set_active_vacuum_chamber_frame r chamber_id) as (Hf1 & Hf2 & _ & _).
    cbn zeta in *.
    apply consistent_alt in Hr as (Hd & Hs & Hv). apply consistent_alt.
    rewrite Hf1, Hf2. split_consistent.
    intros k c' Hk. rewrite lookup_set_active_vacuum_chamber in Hk by eauto.
    destruct (vacuum_chambers r !! k) as [c0|] eqn:Hc0; [|done]. injection Hk as <-.
    by apply Hv in Hc0.
  - unfold RouterVacuumChambers.delete_vacuum_chamber, remove_vacuum_chamber.
    destruct (vacuum_chambers r !! chamber_id); [|done].
    apply consistent_alt in Hr as (Hd & Hs & Hv). apply consistent_alt.
    cbn. split_consistent. by apply keyed_delete.
Qed.

(** X24. Through the HTTP handlers every device, spectrometer and vacuum
    chamber stays stored under its own id, and a control wavelength is only
    ever carried by a monochromatic spectrometer, after any sequence of
    requests to the mutating endpoints. *)
Theorem http_surface_keeps_ids_and_wavelengths (json_dumps : json → string)
    (isoformat : datetime → string) (calls : list (Outside * HttpRequest)) :
  keyed_by_id (serve_all json_dumps isoformat calls).1
  ∧ wavelength_only_if_monochromatic (serve_all json_dumps isoformat calls).1.
Proof.
  unfold serve_all.
  assert (keyed_by_id (DeviceRegistry_init, WebSocketManager_init).1
          ∧ wavelength_only_if_monochromatic (DeviceRegistry_init, WebSocketManager_init).1)
    as Hinit.
  { apply consistent_alt. cbn. split; [|split]; intros k x Hk; by rewrite lookup_empty in Hk. }
  revert Hinit. generalize (DeviceRegistry_init, WebSocketManager_init) as st.
  induction calls as [|call calls IH]; intros st Hst; [done|].
  cbn [foldl]. apply IH. destruct st as [r m].
  by apply serve_keeps_consistent.
Qed.

(** X25. After a spectrometer stored under its own id is activated, the
    monitoring summary reports it, active, with its latest sample and its
    device, in whatever order the dicts are walked.  Once that device is
    removed, the summary reports no spectrometer, although the spectrometer
    is still registered and active. *)
Theorem monitoring_reports_the_activated_spectrometer (r : DeviceRegistry) (i : string)
    (c : SpectrometerConfig.t) (d : DeviceInfo.t)
    (spectrometer_values : list SpectrometerConfig.t)
    (chamber_values : list VacuumChamberConfig.t) :
  spectrometers r !! i = Some c →
  SpectrometerConfig.id c = i →
  devices r !! SpectrometerConfig.device_id c = Some d →
  values_of (spectrometers (set_active_spectrometer i r).2) spectrometer_values →
  let r1 := (set_active_spectrometer i r).2 in
  let r2 := (remove_device (SpectrometerConfig.device_id c) r1).2 in
  ActiveMonitoringStatus.spectrometer
    (RouterMonitoring.get_active_monitoring spectrometer_values chamber_values r1)
  = Some (SpectrometerDetails.mk i (SpectrometerConfig.device_id c)
            (SpectrometerConfig.name c) (SpectrometerConfig.is_monochromatic c)
            (SpectrometerConfig.control_wavelength c) true
            (get_spectral_data r i) d)
  ∧ spectrometers r2 = spectrometers r1
  ∧ ActiveMonitoringStatus.spectrometer
      (RouterMonitoring.get_active_monitoring spectrometer_values chamber_values r2)
    = None.
Proof.
  intros Hc Hid Hd Hv. cbn zeta.
  destruct (get_active_spectrometer_of_set_active r i c spectrometer_values Hc Hv) as [Hg _].
  pose proof (set_active_spectrometer_frame r i) as (Hf1 & _ & Hf3 & _). cbn zeta in *.
  unfold RouterMonitoring.get_active_monitoring. rewrite Hg. cbn.
  unfold get_device, get_spectral_data, remove_device. rewrite Hf1, Hf3, Hd, Hid.
  split; [done|]. cbn. split; [done|]. by rewrite lookup_delete_eq.
Qed.

Lemma monitoring_reports_the_activated_spectrometer_witness :
  ActiveMonitoringStatus.spectrometer
    (RouterMonitoring.get_active_monitoring
       [SpectrometerConfig.set_is_active true spectrometer_a;
        SpectrometerConfig.set_is_active false spectrometer_b] []
       (set_active_spectrometer "a" registry_ab).2)
  = Some (SpectrometerDetails.mk "a" "dev-1" "Bench A" false None true
            (get_spectral_data registry_ab "a") device_1).
Proof.
  apply (monitoring_reports_the_activated_spectrometer registry_ab "a" spectrometer_a device_1
           [SpectrometerConfig.set_is_active true spectrometer_a;
            SpectrometerConfig.set_is_active false spectrometer_b] []);
    try reflexivity.
  unfold values_of. vm_compute. reflexivity.
Defined.

(** * Further properties of the broadcast *)

Lemma received_discards (l : list WebSocket) (c : WebSocket) :
  received (Discarded <$> l) c = [].
Proof. unfold received. by induction l. Qed.

(** X26. When no other task touches the subscriber set while a broadcast
    waits in its sends, then whatever the sends do the broadcast returns
    normally: it tries every subscriber once, removes afterwards those whose
    send raised, and leaves exactly the others; each of them has received
    the serialized message once, and nobody else has received anything. *)
Theorem broadcast_keeps_the_reachable (json_dumps : json → string)
    (table_walk : loop_state → (exn + unit) * loop_state)
    (send_text : Suspension) (sid ts : string) (readings : list float)
    (m : WebSocketManager) :
  (∀ c, c ∈ active_connections m →
        (send_text c (message_of json_dumps sid ts readings) (active_connections m)).2 = None) →
  ∃ m' sends,
    broadcast_spectral_data json_dumps table_walk send_text sid ts readings m
      = (inr tt, m',
         sends ++ (Discarded <$> elements (active_connections m ∖ active_connections m')))
    ∧ attempted sends = elements (active_connections m)
    ∧ (∀ c, c ∈ active_connections m' ↔
            c ∈ active_connections m
            ∧ raises send_text (message_of json_dumps sid ts readings)
                (active_connections m) c = false)
    ∧ (∀ c, c ∈ active_connections m' →
            received sends c = [message_of json_dumps sid ts readings])
    ∧ (∀ c, c ∉ active_connections m' → received sends c = []).
Proof.
  intros Hq.
  pose proof (broadcast_spectral_data_trace json_dumps table_walk send_text sid ts readings m Hq)
    as Hb.
  cbn zeta in Hb. set (msg := message_of json_dumps sid ts readings) in *.
  set (X := active_connections m) in *.
  set (failed := filter (λ c, raises send_text msg X c) X) in *.
  assert (∀ c, c ∈ X ∖ failed ↔ c ∈ X ∧ raises send_text msg X c = false) as Hin.
  { intros c. subst failed. rewrite elem_of_difference, elem_of_filter.
    destruct (raises send_text msg X c); naive_solver. }
  assert (X ∖ (X ∖ failed) = failed) as Hff.
  { apply set_eq. intros c. rewrite !elem_of_difference. subst failed.
    rewrite elem_of_filter. destruct (raises send_text msg X c); naive_solver. }
  exists (mkManager (X ∖ failed)), (send_event send_text msg X <$> elements X).
  cbn [active_connections]. rewrite Hff.
  split; [exact Hb|]. split; [apply attempted_send_events|]. split; [exact Hin|]. split.
  - intros c Hc. apply Hin in Hc as [Hc Hr].
    rewrite received_send_events by apply NoDup_elements.
    rewrite bool_decide_eq_true_2 by (by apply elem_of_elements). by rewrite Hr.
  - intros c Hc. rewrite received_send_events by apply NoDup_elements.
    case_bool_decide as Hel; [|done]. apply elem_of_elements in Hel.
    destruct (raises send_text msg X c) eqn:Hr; [done|]. exfalso. apply Hc, Hin. done.
Qed.

Lemma broadcast_keeps_the_reachable_witness :
  ∃ m' sends,
    broadcast_spectral_data (λ _, "{}") walk_ends deaf_second "a" "1970-01-01T00:00:00"
      [S754_zero false] three_subscribers
    = (inr tt, m',
       sends ++ (Discarded <$> elements (active_connections three_subscribers
                                         ∖ active_connections m')))
    ∧ (2%positive ∉ active_connections m')
    ∧ received sends 2%positive = [].
Proof.
  destruct (broadcast_keeps_the_reachable (λ _, "{}") walk_ends deaf_second "a"
              "1970-01-01T00:00:00" [S754_zero false] three_subscribers)
    as (m' & sends & Hb & _ & Hin & _ & Hout).
  - reflexivity.
  - assert (2%positive ∉ active_connections m') as Hno.
    { intros H. apply Hin in H as [_ H]. discriminate H. }
    exists m', sends. split; [exact Hb|]. split; [exact Hno|]. apply Hout. exact Hno.
Defined.

Lemma manager_eq (m1 m2 : WebSocketManager) :
  active_connections m1 = active_connections m2 → m1 = m2.
Proof. destruct m1, m2. cbn. by intros ->. Qed.

(** X27. [connect] adds the socket once its [accept] has returned, and lets
    the exception through without touching the set when [accept] raises.
    [disconnect] of a socket that is not subscribed changes nothing, so a
    second [disconnect] is harmless, and it undoes the [connect] of a socket
    that was not subscribed before. *)
Theorem connect_then_disconnect (accept : WebSocket → exn + unit) (m : WebSocketManager)
    (websocket : WebSocket) :
  (∀ e, accept websocket = inl e → connect accept m websocket = (inl e, m))
  ∧ (accept websocket = inr tt →
     ∃ m', connect accept m websocket = (inr tt, m')
           ∧ (∀ c, c ∈ active_connections m' ↔ c = websocket ∨ c ∈ active_connections m)
           ∧ (websocket ∉ active_connections m → disconnect m' websocket = m)
           ∧ (websocket ∈ active_connections m → m' = m))
  ∧ (websocket ∉ active_connections m → disconnect m websocket = m)
  ∧ disconnect (disconnect m websocket) websocket = disconnect m websocket.
Proof.
  unfold connect, disconnect. split; [|split; [|split]].
  - by intros e ->.
  - intros ->. eexists. split; [done|]. cbn. split; [|split].
    + intros c. rewrite elem_of_union, elem_of_singleton. done.
    + intros Hn. apply manager_eq. cbn. set_solver.
    + intros Hin. apply manager_eq. cbn. set_solver.
  - intros Hn. apply manager_eq. cbn. set_solver.
  - apply manager_eq. cbn. set_solver.
Qed.

Lemma connect_then_disconnect_witness :
  connect (λ _, inl RequestError) three_subscribers 4%positive
    = (inl RequestError, three_subscribers)
  ∧ disconnect (connect (λ _, inr tt) three_subscribers 4%positive).2 4%positive
    = three_subscribers
  ∧ disconnect three_subscribers 4%positive = three_subscribers.
Proof.
  destruct (connect_then_disconnect (λ _, inl RequestError) three_subscribers 4%positive)
    as (Hraise & _ & Hnot & _).
  destruct (connect_then_disconnect (λ _, inr tt) three_subscribers 4%positive)
    as (_ & Hok & _).
  assert (4%positive ∉ active_connections three_subscribers) as Hn.
  { cbn. rewrite !elem_of_union, !elem_of_singleton. by intros [[|]|]. }
  split; [by apply Hraise|]. split; [|by apply Hnot].
  destruct Hok as (m' & Hc & _ & Hd & _); [reflexivity|]. rewrite Hc. by apply Hd.
Defined.

(** * The enumerations *)

(** X28. [DeviceType(...)] and [ProcessType(...)] accept exactly the values of
    their members and give back the member: they undo [.value], and whatever
    they accept is the string of the member they return. *)
Theorem enum_of_value (v : json) :
  (∀ t, DeviceType_of (JStr (DeviceType_value t)) = inr t)
  ∧ (∀ t, DeviceType_of v = inr t → v = JStr (DeviceType_value t))
  ∧ (∀ p, ProcessType_of (JStr (ProcessType_value p)) = inr p)
  ∧ (∀ p, ProcessType_of v = inr p → v = JStr (ProcessType_value p)).
Proof.
  split; [by intros []|]. split; [|split; [by intros []|]].
  - intros t. destruct v; try done. cbn.
    destruct (String.eqb_spec s "spectrometer") as [->|_]; [by intros [= <-]|].
    destruct (String.eqb_spec s "vacuum-chamber") as [->|_]; [by intros [= <-]|]. done.
  - intros p. destruct v; try done. cbn.
    destruct (String.eqb_spec s "two-component") as [->|_]; [by intros [= <-]|].
    destruct (String.eqb_spec s "three-component") as [->|_]; [by intros [= <-]|].
    destruct (String.eqb_spec s "composite-two-component") as [->|_]; [by intros [= <-]|].
    done.
Qed.

Lemma enum_of_value_witness :
  JStr "three-component" = JStr (ProcessType_value THREE_COMPONENT).
Proof.
  destruct (enum_of_value (JStr "three-component")) as (_ & _ & _ & H).
  apply H. reflexivity.
Defined.
